(** * Prompt-template manager: the Flask handlers of [main.py] over an
    NDB store, a regular-expression variable extractor and a Jinja2
    rendering call.

    Modelling conventions.
    - Python [str] is [string]: the bytes of the text in UTF-8.
    - The handlers are given twice.  The first part has them on ASCII
      text and on the requests the libraries accept: there [\w] is
      [[A-Za-z0-9_]], [str.lower] maps [A-Z] to [a-z], and a request
      without a JSON document counts as one with the empty mapping (what
      [request.json] gave on older versions of Flask).  The second part
      gives the pattern of the extractor for any alphabet and word
      class, the search for any lower-casing, and, in module [App], the
      handlers with the refusals of the libraries: key ids from 2^63 on,
      indexed strings of more than 1500 bytes, requests without a JSON
      document, counts that do not fit 64 bits.
    - The datastore is a finite map from entity ids to entities; an entity
      id is a [positive].  The limit of the datastore service on the size
      of an entity and connectivity failures are not modelled.
    - A timestamp is an integer; the time of a request is an argument of
      the handler that writes.
    - A request is given by what Flask parses from it: method, route, form
      fields, query arguments and JSON document.  Requests Flask cannot
      parse (a malformed JSON body, an oversized form) are outside the
      model.
    - The entities are those the handlers write: every text property
      holds a string.
    - Jinja2 is a library the handlers call: the handlers are defined over
      an arbitrary renderer (a [Section] variable), and a separate
      definition gives Jinja2's result on templates made of literal text
      and [{{ name }}] expressions. *)

From Equations Require Import Equations.
From stdpp Require Import gmap strings list fin_maps sorting.
From Stdlib Require Import Ascii String ZArith Lia DecimalString.

Local Open Scope string_scope.
Local Open Scope char_scope.

(* ===================================================================== *)
(** ** Strings *)
(* ===================================================================== *)

Fixpoint string_forallb (p : ascii -> bool) (s : string) : bool :=
  match s with
  | EmptyString => true
  | String c s' => p c && string_forallb p s'
  end.

Definition in_range (lo hi c : ascii) : bool :=
  (nat_of_ascii lo <=? nat_of_ascii c)%nat && (nat_of_ascii c <=? nat_of_ascii hi)%nat.

Definition is_lower (c : ascii) : bool := in_range "a" "z" c.
Definition is_upper (c : ascii) : bool := in_range "A" "Z" c.
Definition is_digit (c : ascii) : bool := in_range "0" "9" c.

(* ===================================================================== *)
(** ** The variable extractor: [re.findall(r'\{\{(\w+)\}\}', template_text)] *)
(* ===================================================================== *)

(** [\w] on ASCII text *)
Definition is_word (c : ascii) : bool :=
  is_lower c || is_upper c || is_digit c || Ascii.eqb c "_".

(** [\w+] is greedy: the longest run of word characters, and what follows. *)
Fixpoint span_word (s : string) : string * string :=
  match s with
  | String c s' =>
      if is_word c then let (w, r) := span_word s' in (String c w, r)
      else (EmptyString, s)
  | EmptyString => (EmptyString, EmptyString)
  end.

(** One attempt of the pattern at the start of [s]: group 1 and the text
    after the match.  Giving characters of the run back never helps,
    because the run is followed by [}], which is not a word character
    (lemma [match_placeholder_iff] below: the match is the only
    decomposition of [s] the pattern admits). *)
Definition match_placeholder (s : string) : option (string * string) :=
  match s with
  | String "{" (String "{" s1) =>
      match span_word s1 with
      | (String c w, String "}" (String "}" rest)) => Some (String c w, rest)
      | _ => None
      end
  | _ => None
  end.

Definition inspect {A} (a : A) : {b : A | a = b} := exist _ a eq_refl.

(** [re.findall]: scan from the left; after a match the scan resumes at the
    end of the match, otherwise one character further. *)
Equations? findall (s : string) : list string by wf (String.length s) lt :=
  findall EmptyString := [];
  findall (String c s') with inspect (match_placeholder (String c s')) := {
    | exist _ (Some (w, rest)) Hm => w :: findall rest
    | exist _ None _ => findall s' }.
Proof.
  - clear findall. unfold match_placeholder in Hm.
    assert (Hspan : forall t, (String.length (snd (span_word t)) <= String.length t)%nat).
    { induction t as [|a t IH]; simpl; [lia|].
      destruct (is_word a); simpl; [|lia].
      destruct (span_word t); simpl in *; lia. }
    repeat case_match; simplify_eq.
    match goal with H : span_word ?t = _ |- _ =>
      pose proof (Hspan t) as Hlen; rewrite H in Hlen end.
    simpl in *. lia.
  - simpl. lia.
Qed.

(** Every placeholder of [s], by the offset where it starts: the scan
    without the jump over a match. *)
Fixpoint placeholder_occurrences (s : string) : list string :=
  match s with
  | EmptyString => []
  | String _ s' =>
      match match_placeholder s with
      | Some (w, _) => w :: placeholder_occurrences s'
      | None => placeholder_occurrences s'
      end
  end.

(* ===================================================================== *)
(** ** Python string operations used by the handlers *)
(* ===================================================================== *)

(** [str.lower] on ASCII text *)
Definition lower_char (c : ascii) : ascii :=
  if is_upper c then ascii_of_nat (nat_of_ascii c + 32) else c.

Fixpoint py_lower (s : string) : string :=
  match s with
  | EmptyString => EmptyString
  | String c s' => String (lower_char c) (py_lower s')
  end.

(** [sub in s] on two strings *)
Fixpoint py_in (sub s : string) : bool :=
  String.prefix sub s ||
  match s with
  | EmptyString => false
  | String _ s' => py_in sub s'
  end.

(** [s.split(sep)] for a one-character separator: never the empty list. *)
Fixpoint py_split (sep : ascii) (s : string) : list string :=
  match s with
  | EmptyString => [EmptyString]
  | String c s' =>
      if Ascii.eqb c sep then EmptyString :: py_split sep s'
      else match py_split sep s' with
           | piece :: pieces => String c piece :: pieces
           | [] => [String c EmptyString]
           end
  end.

(** [sep.join(pieces)] *)
Fixpoint py_join (sep : string) (pieces : list string) : string :=
  match pieces with
  | [] => EmptyString
  | [p] => p
  | p :: ps => p +:+ sep +:+ py_join sep ps
  end.

(** [request.form['tags'].split(',') if request.form['tags'] else []] *)
Definition parse_tags (tags_field : string) : list string :=
  match tags_field with
  | EmptyString => []
  | _ => py_split "," tags_field
  end.

Definition no_comma (tag : string) : bool :=
  string_forallb (fun c => negb (Ascii.eqb c ",")) tag.

(** [s.lstrip()] on spaces, for stating what the handlers do not do. *)
Fixpoint lstrip (s : string) : string :=
  match s with
  | String " " s' => lstrip s'
  | _ => s
  end.

(** In the spec's words: [q] is a case-insensitive substring of [s]. *)
Definition ci_substring (q s : string) : Prop :=
  exists pre post, py_lower s = pre +:+ py_lower q +:+ post.

(* ===================================================================== *)
(** ** JSON values, as [request.json] delivers them *)
(* ===================================================================== *)

(** JSON numbers with a fraction are left out. *)
#[warnings="-register-all"]
Inductive json :=
| JNull
| JBool (b : bool)
| JInt (z : Z)
| JStr (s : string)
| JList (l : list json)
| JDict (d : list (string * json)).

(** Python truth value of a decoded JSON document. *)
Definition py_truthy (j : json) : bool :=
  match j with
  | JNull => false
  | JBool b => b
  | JInt z => negb (z =? 0)%Z
  | JStr s => negb (String.eqb s EmptyString)
  | JList l => match l with [] => false | _ => true end
  | JDict d => match d with [] => false | _ => true end
  end.

(** A [dict] keeps the order in which its keys were inserted. *)
Fixpoint dict_get (d : list (string * json)) (k : string) : option json :=
  match d with
  | [] => None
  | (k', v) :: d' => if String.eqb k' k then Some v else dict_get d' k
  end.

Definition dict_keys (d : list (string * json)) : list string := d.*1.

(* ===================================================================== *)
(** ** Jinja2 on templates of literal text and [{{ name }}] expressions *)
(* ===================================================================== *)

(** What compiling [body] with [Template] and calling [render] with the
    mapping as keyword arguments does, for the templates and mappings
    this development gives a meaning to. *)
Inductive jinja_result :=
| Rendered (out : string)
| Raises            (* an exception, here always [TemplateSyntaxError] *)
| Unmodelled.       (* nothing is said about this template or mapping *)

Inductive jinja_piece :=
| Data (c : ascii)
| Print (var : string).

Fixpoint skip_spaces (s : string) : string :=
  match s with
  | String " " s' => skip_spaces s'
  | _ => s
  end.

Definition is_name_start (c : ascii) : bool :=
  is_lower c || is_upper c || Ascii.eqb c "_".

(** The text after [{{]: spaces, a name, spaces, [}}].  The result is the
    name and the text after [}}]. *)
Definition lex_print (s : string) : option (string * string) :=
  match span_word (skip_spaces s) with
  | (String c w, r) =>
      if is_name_start c then
        match skip_spaces r with
        | String "}" (String "}" rest) => Some (String c w, rest)
        | _ => None
        end
      else None
  | _ => None
  end.

(** The lexer's root state: text up to the next [{{], [{%] or [{#].
    [None]: the template uses syntax outside the fragment. *)
Equations? jinja_lex (s : string) : option (list jinja_piece)
    by wf (String.length s) lt :=
  jinja_lex EmptyString := Some [];
  jinja_lex (String "{" (String "{" s')) with inspect (lex_print s') := {
    | exist _ (Some (x, rest)) Hl => cons (Print x) <$> jinja_lex rest
    | exist _ None _ => None };
  jinja_lex (String "{" (String "%" _)) := None;
  jinja_lex (String "{" (String "#" _)) := None;
  jinja_lex (String c s') := cons (Data c) <$> jinja_lex s'.
Proof.
  all: try (simpl; lia).
  clear jinja_lex. unfold lex_print in Hl.
  assert (Hspan : forall t, (String.length (snd (span_word t)) <= String.length t)%nat).
  { induction t as [|a t IH]; simpl; [lia|].
    destruct (is_word a); simpl; [|lia].
    destruct (span_word t); simpl in *; lia. }
  assert (Hskip : forall t, (String.length (skip_spaces t) <= String.length t)%nat).
  { induction t as [|a t IH]; simpl; [lia|].
    destruct a as [[] [] [] [] [] [] [] []]; simpl; lia. }
  repeat case_match; simplify_eq.
  match goal with H : span_word ?t = _ |- _ =>
    pose proof (Hspan t) as Hlen; rewrite H in Hlen end.
  match goal with H : skip_spaces ?t = String _ (String _ rest) |- _ =>
    pose proof (Hskip t) as Hlen2; rewrite H in Hlen2 end.
  pose proof (Hskip s') as Hlen3.
  simpl in *. lia.
Qed.

Local Open Scope string_scope.

(** Names that are not plain variables in a Jinja2 expression: the
    literals, the operator [not], the default globals and [self], which
    the compiler binds to the template. *)
Definition jinja_special_names : list string :=
  [ "true"; "false"; "none"; "True"; "False"; "None";
    "not";
    "range"; "dict"; "lipsum"; "cycler"; "joiner"; "namespace";
    "self" ].

Definition string_mem (x : string) (l : list string) : bool :=
  existsb (String.eqb x) l.

Definition printed_names (ps : list jinja_piece) : list string :=
  omap (fun p => match p with Print x => Some x | Data _ => None end) ps.

(** [str(value)] for the scalar values.  An integer prints in decimal;
    the interpreter refuses to convert one of more than 4300 digits. *)
Definition py_str (v : json) : option string :=
  match v with
  | JStr s => Some s
  | JInt z =>
      let text := NilZero.string_of_int (Z.to_int z) in
      if (String.length text <=? 4300)%nat then Some text else None
  | JBool true => Some "True"
  | JBool false => Some "False"
  | JNull => Some "None"
  | _ => None
  end.

(** The output is the concatenation of the pieces; a name the context does
    not bind is [Undefined], which prints as the empty string. *)
Fixpoint render_pieces (kwargs : list (string * json)) (ps : list jinja_piece)
  : option string :=
  match ps with
  | [] => Some EmptyString
  | Data c :: ps' => String c <$> render_pieces kwargs ps'
  | Print x :: ps' =>
      match dict_get kwargs x with
      | None => render_pieces kwargs ps'
      | Some v =>
          match py_str v with
          | Some text => String.append text <$> render_pieces kwargs ps'
          | None => None
          end
      end
  end.

(** Before it scans, the lexer cuts the source into lines and joins them
    again with a line feed, without the empty last line: a final line
    feed is dropped.  Which other characters end a line depends on the
    library's version (carriage return, vertical tab, form feed, the
    separators 28 to 30, next line 133, and the line and paragraph
    separators, in UTF-8 the bytes 226 128 168 and 226 128 169), so
    templates with one of those are left out. *)
Fixpoint drop_final_newline (s : string) : string :=
  match s with
  | EmptyString => EmptyString
  | String c s' =>
      match s' with
      | EmptyString => if Ascii.eqb c "010"%char then EmptyString else s
      | _ => String c (drop_final_newline s')
      end
  end.

Definition other_line_end (c : ascii) : bool :=
  let n := nat_of_ascii c in
  (n =? 11)%nat || (n =? 12)%nat || (n =? 13)%nat ||
  (n =? 28)%nat || (n =? 29)%nat || (n =? 30)%nat || (n =? 133)%nat.

Definition line_separator : string :=
  String (ascii_of_nat 226) (String (ascii_of_nat 128)
    (String (ascii_of_nat 168) EmptyString)).

Definition paragraph_separator : string :=
  String (ascii_of_nat 226) (String (ascii_of_nat 128)
    (String (ascii_of_nat 169) EmptyString)).

Definition has_other_line_end (s : string) : bool :=
  negb (string_forallb (fun c => negb (other_line_end c)) s)
  || py_in line_separator s || py_in paragraph_separator s.

(** The pieces of a template of the fragment. *)
Definition jinja_pieces (body : string) : option (list jinja_piece) :=
  if has_other_line_end body then None
  else jinja_lex (drop_final_newline body).

(** [{{ not }}] is the operator without its operand: the parser raises.
    A key [self] collides with the receiver of [render]. *)
Definition jinja_fragment (body : string) (kwargs : list (string * json))
  : jinja_result :=
  match jinja_pieces body with
  | None => Unmodelled
  | Some ps =>
      if string_mem "not" (printed_names ps) then Raises
      else if string_mem "self" (dict_keys kwargs) then Unmodelled
      else if existsb (fun x => string_mem x jinja_special_names) (printed_names ps)
           then Unmodelled
      else match render_pieces kwargs ps with
           | Some out => Rendered out
           | None => Unmodelled
           end
  end.

(** Templates of literal text and [{{ name }}] expressions over plain
    variable names. *)
Definition plain_template (body : string) : bool :=
  match jinja_pieces body with
  | Some ps =>
      negb (existsb (fun x => string_mem x jinja_special_names) (printed_names ps))
  | None => false
  end.

(** Mappings without the key [self] whose values are strings, integers,
    booleans or null. *)
Definition plain_mapping (kwargs : list (string * json)) : bool :=
  negb (string_mem "self" (dict_keys kwargs)) &&
  forallb (fun kv => match py_str kv.2 with Some _ => true | None => false end) kwargs.

(** The variable [x] is printed somewhere in [body]. *)
Definition prints (body x : string) : Prop :=
  exists ps, jinja_pieces body = Some ps /\ x ∈ printed_names ps.

(** A renderer agrees with Jinja2 on the fragment. *)
Definition jinja_agrees (jinja : string -> list (string * json) -> string + string)
  : Prop :=
  forall body kwargs,
    match jinja_fragment body kwargs with
    | Rendered out => jinja body kwargs = inl out
    | Raises => exists e, jinja body kwargs = inr e
    | Unmodelled => True
    end.

(** One renderer that agrees with the fragment; outside of it, it raises. *)
Definition jinja_instance (body : string) (kwargs : list (string * json))
  : string + string :=
  match jinja_fragment body kwargs with
  | Rendered out => inl out
  | Raises => inr "TemplateSyntaxError"
  | Unmodelled => inr "outside the fragment"
  end.

(* ===================================================================== *)
(** ** The entity and the datastore *)
(* ===================================================================== *)

Record PromptTemplate := mkPromptTemplate {
  name : string;                 (* StringProperty(required=True) *)
  description : string;          (* TextProperty() *)
  template : string;             (* TextProperty(required=True) *)
  category : string;             (* StringProperty(default="General") *)
  tags : list string;            (* StringProperty(repeated=True) *)
  variables : list string;       (* JsonProperty() *)
  created_date : option Z;       (* DateTimeProperty(auto_now_add=True) *)
  modified_date : option Z;      (* DateTimeProperty(auto_now=True) *)
  usage_count : Z                (* IntegerProperty(default=0) *)
}.

Abbreviation datastore := (gmap positive PromptTemplate).

(** What [put] does to the date properties: [auto_now_add] fills
    [created_date] when it has no value, [auto_now] sets [modified_date]
    every time. *)
Definition prepare_for_put (now : Z) (e : PromptTemplate) : PromptTemplate :=
  {| name := name e; description := description e; template := template e;
     category := category e; tags := tags e; variables := variables e;
     created_date := match created_date e with
                     | None => Some now
                     | Some d => Some d
                     end;
     modified_date := Some now;
     usage_count := usage_count e |}.

Definition put (now : Z) (key : positive) (e : PromptTemplate) (db : datastore)
  : datastore :=
  <[key := prepare_for_put now e]> db.

(** [get_by_id] for a key id below 2^63 (see [App] for the others). *)
Definition get_by_id (template_id : positive) (db : datastore)
  : option PromptTemplate :=
  db !! template_id.

Definition key_delete (key : positive) (db : datastore) : datastore :=
  delete key db.

(** The entities of [db] went through [put]. *)
Definition all_dated (db : datastore) : Prop :=
  forall id t, db !! id = Some t -> is_Some (created_date t).

(** [query().filter(...).fetch()]; the order of a query without [order] is
    the datastore's and is not relied on. *)
Definition fetch (keep : PromptTemplate -> bool) (db : datastore)
  : list (positive * PromptTemplate) :=
  List.filter (fun kv => keep kv.2) (map_to_list db).

(* ===================================================================== *)
(** ** Requests and responses *)
(* ===================================================================== *)

Inductive http_method := GET | POST.

(** One entry of the search result. [created_date] stands for its
    [isoformat()] text. *)
Record summary := mkSummary {
  s_id : positive;
  s_name : string;
  s_description : string;
  s_category : string;
  s_tags : list string;
  s_created_date : option Z
}.

Inductive payload :=
| SearchResult (result : list summary)
| RenderResult (rendered template_name : string) (variables_used : list string)
| ErrorResult (error : string).

Inductive response :=
| Html (page : string) (shown : option PromptTemplate)   (* render_template *)
| Redirect (endpoint : string) (template_id : option positive)
| PlainText (body : string) (status : Z)
| Json (body : payload) (status : Z)                     (* jsonify *)
| BadRequestKeyError.         (* [request.form[k]] without [k]: HTTP 400 *)

Definition status_of (r : response) : Z :=
  match r with
  | Html _ _ => 200
  | Redirect _ _ => 302
  | PlainText _ st => st
  | Json _ st => st
  | BadRequestKeyError => 400
  end.

(** The five fields both forms read, [None] when one is missing. *)
Record form_fields := mkFields {
  f_template : string; f_name : string; f_description : string;
  f_category : string; f_tags : string
}.

Definition read_form (form : gmap string string) : option form_fields :=
  template_text ← form !! "template";
  n ← form !! "name";
  d ← form !! "description";
  c ← form !! "category";
  tg ← form !! "tags";
  Some (mkFields template_text n d c tg).

(* ===================================================================== *)
(** ** The handlers *)
(* ===================================================================== *)

(** [/template/<int:template_id>] *)
Definition view_template (template_id : positive) (db : datastore) : response :=
  match get_by_id template_id db with
  | None => PlainText "Template not found" 404
  | Some t => Html "template_detail.html" (Some t)
  end.

(** [/create]. [new_id] is the id the datastore allocates for the entity. *)
Definition create_template (method : http_method) (form : gmap string string)
    (now : Z) (new_id : positive) (db : datastore) : datastore * response :=
  match method with
  | POST =>
      match read_form form with
      | None => (db, BadRequestKeyError)
      | Some f =>
          let vars := findall (f_template f) in
          let t := {| name := f_name f;
                      description := f_description f;
                      template := f_template f;
                      category := f_category f;
                      tags := parse_tags (f_tags f);
                      variables := vars;
                      created_date := None;
                      modified_date := None;
                      usage_count := 0 |} in
          (put now new_id t db, Redirect "index" None)
      end
  | GET => (db, Html "create_template.html" None)
  end.

(** [/edit/<int:template_id>] *)
Definition edit_template (method : http_method) (template_id : positive)
    (form : gmap string string) (now : Z) (db : datastore)
  : datastore * response :=
  match get_by_id template_id db with
  | None => (db, PlainText "Template not found" 404)
  | Some t =>
      match method with
      | POST =>
          match read_form form with
          | None => (db, BadRequestKeyError)
          | Some f =>
              let vars := findall (f_template f) in
              let t' := {| name := f_name f;
                           description := f_description f;
                           template := f_template f;
                           category := f_category f;
                           tags := parse_tags (f_tags f);
                           variables := vars;
                           created_date := created_date t;
                           modified_date := modified_date t;
                           usage_count := usage_count t |} in
              (put now template_id t' db, Redirect "view_template" (Some template_id))
          end
      | GET => (db, Html "edit_template.html" (Some t))
      end
  end.

Definition args_get (args : gmap string string) (k default : string) : string :=
  match args !! k with
  | Some v => v
  | None => default
  end.

Definition summarize (kv : positive * PromptTemplate) : summary :=
  {| s_id := kv.1;
     s_name := name kv.2;
     s_description := description kv.2;
     s_category := category kv.2;
     s_tags := tags kv.2;
     s_created_date := created_date kv.2 |}.

(** The loop of [search_templates] keeps a template unless one of its two
    [continue] tests fires. *)
Definition search_keeps (query tag : string) (t : PromptTemplate) : bool :=
  if negb (String.eqb query "")
     && negb (py_in query (py_lower (name t)))
     && negb (py_in query (py_lower (description t)))
  then false
  else if negb (String.eqb tag "") && negb (string_mem tag (tags t))
  then false
  else true.

(** [/api/search] *)
Definition search_templates (args : gmap string string) (db : datastore)
  : response :=
  let query := py_lower (args_get args "q" "") in
  let cat := args_get args "category" "" in
  let tag := args_get args "tag" "" in
  let templates :=
    if negb (String.eqb cat "")
    then fetch (fun t => String.eqb (category t) cat) db
    else fetch (fun _ => true) db in
  let filtered_templates := List.filter (fun kv => search_keeps query tag kv.2) templates in
  Json (SearchResult (summarize <$> filtered_templates)) 200.

(** [/delete/<int:template_id>] *)
Definition delete_template (template_id : positive) (db : datastore)
  : datastore * response :=
  match get_by_id template_id db with
  | Some _ => (key_delete template_id db, Redirect "index" None)
  | None => (db, Redirect "index" None)
  end.

Section Render.

(** [Template(body).render] with the keyword arguments [kwargs]: the
    text, or [str(e)] of the exception either call raises. *)
Variable jinja : string -> list (string * json) -> string + string.

(** [str(e)] of the exception raised when the request's JSON document
    is true in Python but not a mapping: the template's own error if it
    does not compile, otherwise the [TypeError] of the call. *)
Variable nonmapping_exn : string -> json -> string.

(** [request.json if request.json else {}]; [None] is what [request.json]
    gave for a request without a JSON document on older versions of
    Flask (on a current one the request is refused, see [App]). *)
Definition request_variables (request_json : option json) : json :=
  match request_json with
  | Some j => if py_truthy j then j else JDict []
  | None => JDict []
  end.

Definition count_use (t : PromptTemplate) : PromptTemplate :=
  {| name := name t; description := description t; template := template t;
     category := category t; tags := tags t; variables := variables t;
     created_date := created_date t; modified_date := modified_date t;
     usage_count := usage_count t + 1 |}.

(** [/api/render/<int:template_id>] *)
Definition render_template_api (template_id : positive)
    (request_json : option json) (now : Z) (db : datastore)
  : datastore * response :=
  match get_by_id template_id db with
  | None => (db, Json (ErrorResult "Template not found") 404)
  | Some t =>
      match request_variables request_json with
      | JDict kwargs =>
          match jinja (template t) kwargs with
          | inl rendered =>
              (put now template_id (count_use t) db,
               Json (RenderResult rendered (name t) (dict_keys kwargs)) 200)
          | inr e =>
              (db, Json (ErrorResult ("Template rendering error: " +:+ e)) 400)
          end
      | v =>
          (db, Json (ErrorResult
                       ("Template rendering error: " +:+ nonmapping_exn (template t) v))
                    400)
      end
  end.

End Render.

(* ===================================================================== *)
(** ** Sample requests and datastores *)
(* ===================================================================== *)

Definition make_form (n d body c tg : string) : gmap string string :=
  list_to_map [("name", n); ("description", d); ("template", body);
               ("category", c); ("tags", tg)].

Definition greeting_form : gmap string string :=
  make_form "Greeting" "" "Hi {{user}}!" "" "".

(** The datastore after one create request, at time 100, with id 1. *)
Definition greeting_db : datastore :=
  (create_template POST greeting_form 100 1 ∅).1.

Definition greeting : PromptTemplate :=
  {| name := "Greeting"; description := ""; template := "Hi {{user}}!";
     category := ""; tags := []; variables := ["user"];
     created_date := Some 100%Z; modified_date := Some 100%Z;
     usage_count := 0 |}.

Definition farewell_form : gmap string string :=
  make_form "Farewell" "said at the end" "Bye {{user}}, see you {{day}}" "Mail" "a, b".

Definition blank_form : gmap string string := make_form "" "" "" "" "".

Definition welcome_email : PromptTemplate :=
  {| name := "Welcome Email"; description := ""; template := "Welcome, {{user}}";
     category := "Marketing"; tags := ["onboarding"]; variables := ["user"];
     created_date := Some 100%Z; modified_date := Some 100%Z; usage_count := 0 |}.

Definition error_alert : PromptTemplate :=
  {| name := "Error Alert"; description := ""; template := "{{service}} is down";
     category := "Ops"; tags := ["alert"]; variables := ["service"];
     created_date := Some 101%Z; modified_date := Some 101%Z; usage_count := 0 |}.

Definition two_templates : datastore :=
  <[2%positive := error_alert]> (<[1%positive := welcome_email]> ∅).

Definition search_args (k v : string) : gmap string string := {[ k := v ]}.

(** A lower-casing that folds, besides the letters of ASCII, the
    accented capitals of Latin-1 in their two-byte UTF-8 form (first
    byte 195, second byte 128 to 158 other than the multiplication
    sign 151). *)
Fixpoint lower_latin1 (s : string) : string :=
  match s with
  | EmptyString => EmptyString
  | String c s' =>
      match s' with
      | String d s'' =>
          if (nat_of_ascii c =? 195)%nat && (128 <=? nat_of_ascii d)%nat
             && (nat_of_ascii d <=? 158)%nat && negb (nat_of_ascii d =? 151)%nat
          then String c (String (ascii_of_nat (nat_of_ascii d + 32))
                                (lower_latin1 s''))
          else String (lower_char c) (lower_latin1 s')
      | EmptyString => String (lower_char c) EmptyString
      end
  end.

(** The French word for school, with the capital and with the small
    accented letter, in UTF-8. *)
Definition ecole_capital : string :=
  String (ascii_of_nat 195) (String (ascii_of_nat 137) "cole").

Definition ecole_small : string :=
  String (ascii_of_nat 195) (String (ascii_of_nat 169) "cole").

Definition ecole_template : PromptTemplate :=
  mkPromptTemplate ecole_capital "" "Bonjour {{nom}}" "General" [] []
                   (Some 100%Z) (Some 100%Z) 0.

Definition ecole_db : datastore := <[1%positive := ecole_template]> ∅.

(** A stored template whose body is the placeholder [{{not}}]. *)
Definition negation_db : datastore :=
  (create_template POST (make_form "Negation" "" "{{not}}" "General" "") 100 1 ∅).1.

Definition type_error (body : string) (v : json) : string := "TypeError".

(* ===================================================================== *)
(** ** The pattern over any alphabet *)
(* ===================================================================== *)

(** Python matches the pattern on the code points of a [str], and its
    [\w] is the word class of Unicode.  The scan is given here for any
    type of characters, with the two braces and the word class as
    parameters; [findall] above is its instance on [string] with the
    word class of ASCII. *)
Section Pattern.

Context {char : Type} `{EqDecision char}.
Variables (lbrace rbrace : char) (word : char -> bool).

(** [\w+], greedy. *)
Fixpoint re_span (s : list char) : list char * list char :=
  match s with
  | c :: s' =>
      if word c then let (w, r) := re_span s' in (c :: w, r) else ([], s)
  | [] => ([], [])
  end.

(** [\}\}] at the start of [r]: the text after it. *)
Definition re_close (r : list char) : option (list char) :=
  match r with
  | x :: y :: rest =>
      if bool_decide (x = rbrace) && bool_decide (y = rbrace) then Some rest
      else None
  | _ => None
  end.

(** One attempt of the pattern at the start of [s]: group 1 and the text
    after the match.  Giving characters of the run back never helps when
    the closing brace is not a word character, as with [\w]. *)
Definition re_match (s : list char) : option (list char * list char) :=
  match s with
  | a :: b :: s1 =>
      if bool_decide (a = lbrace) && bool_decide (b = lbrace) then
        match re_span s1 with
        | (c :: w, r) => (fun rest => (c :: w, rest)) <$> re_close r
        | _ => None
        end
      else None
  | _ => None
  end.

(** [re.findall]: after a match the scan resumes at its end, otherwise
    one character further. *)
Equations? re_findall (s : list char) : list (list char)
    by wf (List.length s) lt :=
  re_findall [] := [];
  re_findall (c :: s') with inspect (re_match (c :: s')) := {
    | exist _ (Some (w, rest)) Hm => w :: re_findall rest
    | exist _ None _ => re_findall s' }.
Proof.
  - clear re_findall.
    assert (Hspan : forall t, (List.length (re_span t).2 <= List.length t)%nat).
    { induction t as [|a t IH]; simpl; [lia|].
      destruct (word a); simpl; [|lia].
      destruct (re_span t); simpl in *; lia. }
    unfold re_match in Hm. destruct s' as [|b s1]; [done|].
    destruct (bool_decide (c = lbrace) && bool_decide (b = lbrace)); [|done].
    pose proof (Hspan s1) as Hlen.
    destruct (re_span s1) as [[|x w'] r]; [done|]. cbn [snd] in Hlen.
    unfold re_close in Hm. destruct r as [|y [|z r]]; try done.
    destruct (bool_decide (y = rbrace) && bool_decide (z = rbrace)); [|done].
    injection Hm as <- <-. simpl in *. lia.
  - simpl. lia.
Qed.

(** The placeholder that starts at offset [i], if there is one. *)
Definition re_placeholder_at (body : list char) (i : nat) : option (list char) :=
  fst <$> re_match (drop i body).

(** Every placeholder of [s], offset by offset. *)
Fixpoint re_occurrences (s : list char) : list (list char) :=
  match s with
  | [] => []
  | _ :: s' =>
      match re_match s with
      | Some (w, _) => w :: re_occurrences s'
      | None => re_occurrences s'
      end
  end.

(** In the spec's words: [w] is one or more word characters and the body
    reads two opening braces, [w], two closing braces at offset [i]. *)
Definition re_is_placeholder_at (body : list char) (i : nat) (w : list char)
  : Prop :=
  exists pre post,
    body = (pre ++ [lbrace; lbrace] ++ w ++ [rbrace; rbrace] ++ post)%list /\
    List.length pre = i /\
    w <> [] /\ forallb word w = true.

End Pattern.

(** Total length of the placeholders of the names [ws]. *)
Definition re_placeholders_length {char} (ws : list (list char)) : nat :=
  sum_list ((fun w => List.length w + 4) <$> ws).

(* ===================================================================== *)
(** ** The search with the lower-casing of the library *)
(* ===================================================================== *)

(** [str.lower] follows the Unicode case tables.  The search is given
    here with the lower-casing as a parameter; [search_templates] above
    is its instance with the lower-casing of ASCII. *)
Section SearchWith.

Variable lower : string -> string.

(** In the spec's words: [q] is a case-insensitive substring of [s]. *)
Definition ci_substring_with (q s : string) : Prop :=
  exists pre post, lower s = pre +:+ lower q +:+ post.

Definition search_keeps_with (query tag : string) (t : PromptTemplate) : bool :=
  if negb (String.eqb query "")
     && negb (py_in query (lower (name t)))
     && negb (py_in query (lower (description t)))
  then false
  else if negb (String.eqb tag "") && negb (string_mem tag (tags t))
  then false
  else true.

(** [/api/search] *)
Definition search_templates_with (args : gmap string string) (db : datastore)
  : response :=
  let query := lower (args_get args "q" "") in
  let cat := args_get args "category" "" in
  let tag := args_get args "tag" "" in
  let templates :=
    if negb (String.eqb cat "")
    then fetch (fun t => String.eqb (category t) cat) db
    else fetch (fun _ => true) db in
  let filtered_templates :=
    List.filter (fun kv => search_keeps_with query tag kv.2) templates in
  Json (SearchResult (summarize <$> filtered_templates)) 200.

End SearchWith.

(* ===================================================================== *)
(** ** The handlers with the refusals of the libraries *)
(* ===================================================================== *)

(** The handlers above say what each route does with a request the
    libraries accept.  Module [App] gives each handler again, line by
    line, with the refusals the libraries add:
    - [get_by_id] raises [ValueError] for a key id of 2^63 or more;
    - ndb raises [BadValueError] when an indexed string property ([name],
      [category], a tag) is given more than 1500 bytes;
    - [request.json] aborts with 415 when the request does not declare
      a JSON body;
    - [put] raises when an integer property does not fit 64 bits.
    An exception no handler catches is answered with 500.  The id 0 and
    the limit of the datastore service on the size of an entity are
    left out. *)
Inductive answer :=
| Answered (r : response)
| InternalServerError            (* an exception nothing catches: HTTP 500 *)
| UnsupportedMediaType.          (* HTTP 415 *)

Definition answer_status (a : answer) : Z :=
  match a with
  | Answered r => status_of r
  | InternalServerError => 500
  | UnsupportedMediaType => 415
  end.

(** The key ids ndb accepts. *)
Definition key_id_ok (id : positive) : bool := (Z.pos id <? 2 ^ 63)%Z.

(** The values an indexed string property accepts. *)
Definition indexed_ok (value : string) : bool := (String.length value <=? 1500)%nat.

(** The values an integer property can be stored with. *)
Definition count_ok (z : Z) : bool := (- 2 ^ 63 <=? z)%Z && (z <? 2 ^ 63)%Z.

(** The forms whose name, category and tags ndb accepts. *)
Definition storable (f : form_fields) : bool :=
  indexed_ok (f_name f) && indexed_ok (f_category f)
  && forallb indexed_ok (parse_tags (f_tags f)).

Module App.

(** [PromptTemplate.get_by_id]: [None] is the [ValueError]. *)
Definition get_by_id (template_id : positive) (db : datastore)
  : option (option PromptTemplate) :=
  if key_id_ok template_id then Some (db !! template_id) else None.

(** [/template/<int:template_id>] *)
Definition view_template (template_id : positive) (db : datastore) : answer :=
  match get_by_id template_id db with
  | None => InternalServerError
  | Some None => Answered (PlainText "Template not found" 404)
  | Some (Some t) => Answered (Html "template_detail.html" (Some t))
  end.

(** [/create]: the form is read before the entity is built, and the
    entity is validated when it is built. *)
Definition create_template (method : http_method) (form : gmap string string)
    (now : Z) (new_id : positive) (db : datastore) : datastore * answer :=
  match method with
  | POST =>
      match read_form form with
      | None => (db, Answered BadRequestKeyError)
      | Some f =>
          let vars := findall (f_template f) in
          if indexed_ok (f_name f) && indexed_ok (f_category f)
             && forallb indexed_ok (parse_tags (f_tags f))
          then
            let t := {| name := f_name f;
                        description := f_description f;
                        template := f_template f;
                        category := f_category f;
                        tags := parse_tags (f_tags f);
                        variables := vars;
                        created_date := None;
                        modified_date := None;
                        usage_count := 0 |} in
            (put now new_id t db, Answered (Redirect "index" None))
          else (db, InternalServerError)
      end
  | GET => (db, Answered (Html "create_template.html" None))
  end.

(** [/edit/<int:template_id>]: each assignment reads its field and
    validates it before the next one is read. *)
Definition edit_template (method : http_method) (template_id : positive)
    (form : gmap string string) (now : Z) (db : datastore)
  : datastore * answer :=
  match get_by_id template_id db with
  | None => (db, InternalServerError)
  | Some None => (db, Answered (PlainText "Template not found" 404))
  | Some (Some t) =>
      match method with
      | POST =>
          match form !! "template" with
          | None => (db, Answered BadRequestKeyError)
          | Some template_text =>
          let vars := findall template_text in
          match form !! "name" with
          | None => (db, Answered BadRequestKeyError)
          | Some n =>
          if negb (indexed_ok n) then (db, InternalServerError) else
          match form !! "description" with
          | None => (db, Answered BadRequestKeyError)
          | Some d =>
          match form !! "category" with
          | None => (db, Answered BadRequestKeyError)
          | Some c =>
          if negb (indexed_ok c) then (db, InternalServerError) else
          match form !! "tags" with
          | None => (db, Answered BadRequestKeyError)
          | Some tg =>
          if negb (forallb indexed_ok (parse_tags tg))
          then (db, InternalServerError) else
          let t' := {| name := n;
                       description := d;
                       template := template_text;
                       category := c;
                       tags := parse_tags tg;
                       variables := vars;
                       created_date := created_date t;
                       modified_date := modified_date t;
                       usage_count := usage_count t |} in
          (put now template_id t' db,
           Answered (Redirect "view_template" (Some template_id)))
          end end end end end
      | GET => (db, Answered (Html "edit_template.html" (Some t)))
      end
  end.

(** [/delete/<int:template_id>] *)
Definition delete_template (template_id : positive) (db : datastore)
  : datastore * answer :=
  match get_by_id template_id db with
  | None => (db, InternalServerError)
  | Some (Some _) =>
      (key_delete template_id db, Answered (Redirect "index" None))
  | Some None => (db, Answered (Redirect "index" None))
  end.

Section Render.

Variable jinja : string -> list (string * json) -> string + string.
Variable nonmapping_exn : string -> json -> string.
(** [str(e)] for the exception [put] raises on a usage count that does
    not fit 64 bits. *)
Variable put_exn : Z -> string.

(** [/api/render/<int:template_id>]. [request_json] is [None] for a
    request that does not declare a JSON body: line 134 aborts, outside
    the [try]; the [put] of line 144 is inside. *)
Definition render_template_api (template_id : positive)
    (request_json : option json) (now : Z) (db : datastore)
  : datastore * answer :=
  match get_by_id template_id db with
  | None => (db, InternalServerError)
  | Some None => (db, Answered (Json (ErrorResult "Template not found") 404))
  | Some (Some t) =>
      match request_json with
      | None => (db, UnsupportedMediaType)
      | Some document =>
          match (if py_truthy document then document else JDict []) with
          | JDict kwargs =>
              match jinja (template t) kwargs with
              | inl rendered =>
                  if count_ok (usage_count t + 1)
                  then
                    (put now template_id (count_use t) db,
                     Answered (Json (RenderResult rendered (name t)
                                                  (dict_keys kwargs)) 200))
                  else
                    (db, Answered (Json (ErrorResult
                                           ("Template rendering error: "
                                            +:+ put_exn (usage_count t + 1))) 400))
              | inr e =>
                  (db, Answered (Json (ErrorResult
                                         ("Template rendering error: " +:+ e)) 400))
              end
          | v =>
              (db, Answered (Json (ErrorResult
                                     ("Template rendering error: "
                                      +:+ nonmapping_exn (template t) v)) 400))
          end
      end
  end.

End Render.

End App.

(** The variables of a JSON document that is present. *)
Definition document_variables (document : json) : json :=
  if py_truthy document then document else JDict [].

(** A string of [n] times the character [c]. *)
Fixpoint string_repeat (c : ascii) (n : nat) : string :=
  match n with
  | O => EmptyString
  | S n' => String c (string_repeat c n')
  end.

(** The first key id ndb refuses. *)
Definition first_bad_id : positive := (2 ^ 63)%positive.

(** The forms whose name, category and tags, as far as they are present,
    ndb accepts. *)
Definition form_accepted (form : gmap string string) : bool :=
  from_option indexed_ok true (form !! "name")
  && from_option indexed_ok true (form !! "category")
  && from_option (fun tg => forallb indexed_ok (parse_tags tg)) true
                 (form !! "tags").

(** A name of 1501 bytes, and the form of [farewell_form] with it. *)
Definition long_name : string := string_repeat "a" 1501.

Definition long_name_form : gmap string string :=
  <["name" := long_name]> farewell_form.

Definition overflow_error (z : Z) : string := "OverflowError".

(* ===================================================================== *)
(** ** The listing page *)
(* ===================================================================== *)

(** Order of two date properties; a property without value comes before
    every date. *)
Definition date_le (a b : option Z) : bool :=
  match a, b with
  | None, _ => true
  | Some _, None => false
  | Some x, Some y => (x <=? y)%Z
  end.

(** [order(-PromptTemplate.created_date)]: [x] may stand before [y]. *)
Definition newer_first (x y : positive * PromptTemplate) : Prop :=
  Is_true (date_le (created_date y.2) (created_date x.2)).

(** The context [index.html] is rendered with. *)
Record index_context := mkIndex {
  ctx_templates : list (positive * PromptTemplate);
  ctx_categories : list string
}.

(** [/]. Among templates of one creation date the order is the
    datastore's; [list(set(...))] has the order of the set. *)
Definition index (db : datastore) : index_context :=
  let templates := merge_sort newer_first (fetch (fun _ => true) db) in
  let categories :=
    elements (list_to_set ((fun kv => category kv.2) <$> templates) : gset string) in
  {| ctx_templates := templates; ctx_categories := categories |}.

(* ===================================================================== *)
(** ** The routes *)
(* ===================================================================== *)

(** The rules declared with [app.route]. *)
Inductive route :=
| Index
| ViewTemplate (template_id : positive)
| CreateTemplate
| EditTemplate (template_id : positive)
| SearchTemplates
| RenderTemplateApi (template_id : positive)
| DeleteTemplate (template_id : positive).

Record request := mkRequest {
  req_method : http_method;
  req_route : route;
  req_form : gmap string string;       (* request.form *)
  req_args : gmap string string;       (* request.args *)
  req_json : option json               (* request.json *)
}.

Inductive reply :=
| Responded (r : response)
| Listing (ctx : index_context)
| MethodNotAllowed.           (* the rule does not list the method: HTTP 405 *)

Section Routes.

Variable jinja : string -> list (string * json) -> string + string.
Variable nonmapping_exn : string -> json -> string.

(** One request, at time [now]; [new_id] is the id the datastore would
    allocate.  A rule without [methods] accepts [GET]. *)
Definition serve (now : Z) (new_id : positive) (req : request) (db : datastore)
  : datastore * reply :=
  match req_route req, req_method req with
  | Index, GET => (db, Listing (index db))
  | ViewTemplate template_id, GET =>
      (db, Responded (view_template template_id db))
  | CreateTemplate, method =>
      let (db', r) := create_template method (req_form req) now new_id db in
      (db', Responded r)
  | EditTemplate template_id, method =>
      let (db', r) := edit_template method template_id (req_form req) now db in
      (db', Responded r)
  | SearchTemplates, GET =>
      (db, Responded (search_templates (req_args req) db))
  | RenderTemplateApi template_id, POST =>
      let (db', r) :=
        render_template_api jinja nonmapping_exn template_id (req_json req) now db in
      (db', Responded r)
  | DeleteTemplate template_id, POST =>
      let (db', r) := delete_template template_id db in
      (db', Responded r)
  | _, _ => (db, MethodNotAllowed)
  end.

(** A request with the time it arrives at and the id the datastore has
    ready. *)
Record event := mkEvent {
  ev_request : request;
  ev_now : Z;
  ev_new_id : positive
}.

(** The requests of [events], served one after the other. *)
Fixpoint run (events : list event) (db : datastore) : datastore * list reply :=
  match events with
  | [] => (db, [])
  | e :: es =>
      let (db1, r) := serve (ev_now e) (ev_new_id e) (ev_request e) db in
      let (db2, rs) := run es db1 in
      (db2, r :: rs)
  end.

End Routes.

Definition reply_status (r : reply) : Z :=
  match r with
  | Responded r => status_of r
  | Listing _ => 200
  | MethodNotAllowed => 405
  end.

(** The entity [create_template] builds from the form, before [put]. *)
Definition created_entity (f : form_fields) : PromptTemplate :=
  {| name := f_name f; description := f_description f; template := f_template f;
     category := f_category f; tags := parse_tags (f_tags f);
     variables := findall (f_template f);
     created_date := None; modified_date := None; usage_count := 0 |}.

(** The entity [edit_template] leaves in memory, before [put]. *)
Definition edited_entity (t : PromptTemplate) (f : form_fields) : PromptTemplate :=
  {| name := f_name f; description := f_description f; template := f_template f;
     category := f_category f; tags := parse_tags (f_tags f);
     variables := findall (f_template f);
     created_date := created_date t; modified_date := modified_date t;
     usage_count := usage_count t |}.

(** The entity a request names. *)
Definition target (new_id : positive) (req : request) : option positive :=
  match req_route req with
  | Index | SearchTemplates => None
  | CreateTemplate => Some new_id
  | ViewTemplate template_id | EditTemplate template_id
  | RenderTemplateApi template_id | DeleteTemplate template_id => Some template_id
  end.

(** A successful answer of the render API for [template_id]. *)
Definition rendered_ok (template_id : positive) (e : event) (r : reply) : bool :=
  match req_route (ev_request e), r with
  | RenderTemplateApi i, Responded (Json (RenderResult _ _ _) _) =>
      Pos.eqb i template_id
  | _, _ => false
  end.

(** Number of successful answers of the render API for [template_id]
    among the replies to [events]. *)
Fixpoint count_rendered (template_id : positive) (events : list event)
    (replies : list reply) : Z :=
  match events, replies with
  | e :: es, r :: rs =>
      (if rendered_ok template_id e r then 1 else 0)
      + count_rendered template_id es rs
  | _, _ => 0
  end.

(** What every entity written by the handlers satisfies. *)
Definition well_kept (t : PromptTemplate) : Prop :=
  variables t = findall (template t) /\
  is_Some (created_date t) /\ is_Some (modified_date t) /\
  (0 <= usage_count t)%Z.

(** Creation is not after modification, and neither is after [bound]. *)
Definition dated_upto (bound : Z) (t : PromptTemplate) : Prop :=
  exists c m,
    created_date t = Some c /\ modified_date t = Some m /\ (c <= m <= bound)%Z.

(** Number of commas of a string. *)
Fixpoint count_commas (s : string) : nat :=
  match s with
  | EmptyString => 0
  | String c s' => (if Ascii.eqb c ","%char then 1 else 0) + count_commas s'
  end.

(** Requests as a browser and an API client send them. *)
Definition get_request (r : route) : request :=
  mkRequest GET r ∅ ∅ None.

Definition post_request (r : route) (form : gmap string string)
    (document : option json) : request :=
  mkRequest POST r form ∅ document.

Definition ada : option json := Some (JDict [("user", JStr "Ada")]).

(** After [Greeting] was created: a render, a render refused for its
    document, an edit, a render without document, a second template, the
    listing page. *)
Definition later_events : list event :=
  [ mkEvent (post_request (RenderTemplateApi 1) ∅ ada) 110 2;
    mkEvent (post_request (RenderTemplateApi 1) ∅ (Some (JList [JInt 1]))) 120 2;
    mkEvent (post_request (EditTemplate 1) farewell_form None) 130 2;
    mkEvent (post_request (RenderTemplateApi 1) ∅ None) 140 2;
    mkEvent (post_request CreateTemplate blank_form None) 150 2;
    mkEvent (get_request Index) 160 3 ].

Definition sample_events : list event :=
  mkEvent (post_request CreateTemplate greeting_form None) 100 1 :: later_events.

(* ===================================================================== *)
(** * Properties *)
(* ===================================================================== *)

Section StringFacts.

Lemma append_nil (b : string) : "" +:+ b = b.
Proof. reflexivity. Qed.

Lemma append_cons (x : ascii) (a b : string) :
  String x a +:+ b = String x (a +:+ b).
Proof. reflexivity. Qed.

Lemma append_assoc (a b c : string) : (a +:+ b) +:+ c = a +:+ (b +:+ c).
Proof.
  induction a as [|x a IH]; [done|]. by rewrite !append_cons, IH.
Qed.

Lemma append_empty_r (a : string) : a +:+ "" = a.
Proof. induction a as [|x a IH]; [done|]. by rewrite append_cons, IH. Qed.

Lemma append_length (a b : string) :
  String.length (a +:+ b) = (String.length a + String.length b)%nat.
Proof.
  induction a as [|x a IH]; [done|]. rewrite append_cons. simpl. by rewrite IH.
Qed.

End StringFacts.

Section Extractor.

Lemma span_word_spec s w r :
  span_word s = (w, r) -> s = w +:+ r /\ string_forallb is_word w = true.
Proof.
  revert w r; induction s as [|c s IH]; simpl; intros w r.
  - by intros [= <- <-].
  - destruct (is_word c) eqn:Hc.
    + destruct (span_word s) as [w' r'] eqn:Hs. intros [= <- <-].
      destruct (IH _ _ eq_refl) as [-> Hw]. simpl. by rewrite Hc, Hw.
    + by intros [= <- <-].
Qed.

Lemma span_word_app w c r :
  string_forallb is_word w = true -> is_word c = false ->
  span_word (w +:+ String c r) = (w, String c r).
Proof.
  intros Hw Hc. induction w as [|x w IH].
  - rewrite append_nil. simpl. by rewrite Hc.
  - simpl in Hw. apply andb_prop in Hw as [Hx Hw].
    rewrite append_cons. simpl. by rewrite Hx, (IH Hw).
Qed.

Lemma match_placeholder_iff s w rest :
  match_placeholder s = Some (w, rest) <->
  s = "{{" +:+ w +:+ "}}" +:+ rest /\ w <> "" /\ string_forallb is_word w = true.
Proof.
  split.
  - unfold match_placeholder. intros H.
    repeat case_match; simplify_eq.
    match goal with H : span_word _ = _ |- _ =>
      apply span_word_spec in H as [-> Hw] end.
    by rewrite Hw.
  - intros (-> & Hne & Hw).
    change ("{{" +:+ w +:+ "}}" +:+ rest)
      with (String "{" (String "{" (w +:+ String "}" (String "}" rest)))).
    unfold match_placeholder.
    rewrite (span_word_app w "}" (String "}" rest) Hw eq_refl).
    by destruct w.
Qed.

Lemma match_placeholder_word c s :
  is_word c = true -> match_placeholder (String c s) = None.
Proof.
  intros H. unfold match_placeholder.
  destruct c as [[] [] [] [] [] [] [] []]; try done.
Qed.

Lemma match_placeholder_brace_word c s :
  is_word c = true -> match_placeholder (String "{" (String c s)) = None.
Proof.
  intros H. unfold match_placeholder.
  destruct c as [[] [] [] [] [] [] [] []]; try done.
Qed.

Lemma occurrences_skip_word w r :
  string_forallb is_word w = true ->
  placeholder_occurrences (w +:+ r) = placeholder_occurrences r.
Proof.
  induction w as [|x w IH]; [done|]. cbn [string_forallb].
  intros [Hx Hw]%andb_prop.
  rewrite append_cons. cbn [placeholder_occurrences].
  rewrite (match_placeholder_word _ _ Hx). by apply IH.
Qed.

Lemma findall_cons c s :
  findall (String c s) =
  match match_placeholder (String c s) with
  | Some (w, rest) => w :: findall rest
  | None => findall s
  end.
Proof.
  simp findall.
  destruct (inspect (match_placeholder (String c s))) as [[[w rest]|] H];
    simp findall; by rewrite H.
Qed.

Lemma occurrences_after_match c s w rest :
  match_placeholder (String c s) = Some (w, rest) ->
  placeholder_occurrences s = placeholder_occurrences rest.
Proof.
  intros (Hs & Hne & Hw)%match_placeholder_iff.
  rewrite !append_cons, append_nil in Hs. injection Hs as -> ->.
  destruct w as [|x w]; [done|].
  cbn [string_forallb] in Hw. apply andb_prop in Hw as [Hx Hw].
  rewrite append_cons. cbn [placeholder_occurrences].
  rewrite (match_placeholder_brace_word _ _ Hx).
  rewrite (match_placeholder_word _ _ Hx).
  rewrite (occurrences_skip_word w _ Hw). done.
Qed.

Lemma match_placeholder_shorter s w rest :
  match_placeholder s = Some (w, rest) ->
  (String.length rest < String.length s)%nat.
Proof.
  intros (-> & _ & _)%match_placeholder_iff.
  rewrite !append_length. simpl. lia.
Qed.

Lemma findall_occurrences s : findall s = placeholder_occurrences s.
Proof.
  remember (String.length s) as n eqn:Hn. revert s Hn.
  induction n as [n IH] using lt_wf_ind. intros [|c s] Hn; [by simp findall|].
  rewrite findall_cons. cbn [placeholder_occurrences].
  destruct (match_placeholder (String c s)) as [[w rest]|] eqn:Hm.
  - rewrite (occurrences_after_match _ _ _ _ Hm). f_equal.
    apply (IH (String.length rest)); [|done].
    subst n. by eapply match_placeholder_shorter.
  - apply (IH (String.length s)); [|done]. subst n. simpl. lia.
Qed.

Lemma omap_all_None {A B} (f : A -> option B) (l : list A) :
  (forall x, f x = None) -> omap f l = [].
Proof. intros H. induction l as [|x l IH]; [done|]. simpl. by rewrite H. Qed.

End Extractor.

Section PatternFacts.

Context {char : Type} `{EqDecision char}.
Variables (lbrace rbrace : char) (word : char -> bool).
Hypothesis word_lbrace : word lbrace = false.
Hypothesis word_rbrace : word rbrace = false.
Hypothesis braces_differ : lbrace <> rbrace.

Implicit Types (s w r rest body : list char) (c : char).

Abbreviation span' := (re_span word).
Abbreviation close' := (re_close rbrace).
Abbreviation match' := (re_match lbrace rbrace word).
Abbreviation findall' := (re_findall lbrace rbrace word).
Abbreviation occurrences' := (re_occurrences lbrace rbrace word).

Lemma re_span_spec s w r :
  span' s = (w, r) -> s = (w ++ r)%list /\ forallb word w = true.
Proof.
  revert w r; induction s as [|c s IH]; simpl; intros w r.
  - by intros [= <- <-].
  - destruct (word c) eqn:Hc.
    + destruct (span' s) as [w' r'] eqn:Hs. intros [= <- <-].
      destruct (IH _ _ eq_refl) as [-> Hw]. simpl. by rewrite Hc, Hw.
    + by intros [= <- <-].
Qed.

Lemma re_span_app w c r :
  forallb word w = true -> word c = false ->
  span' (w ++ c :: r) = (w, c :: r).
Proof.
  intros Hw Hc. induction w as [|x w IH]; simpl in *.
  - by rewrite Hc.
  - apply andb_prop in Hw as [Hx Hw]. by rewrite Hx, (IH Hw).
Qed.

Lemma re_close_iff r rest :
  close' r = Some rest <-> r = rbrace :: rbrace :: rest.
Proof.
  unfold re_close. destruct r as [|x [|y r]]; try done.
  destruct (bool_decide_reflect (x = rbrace)) as [->|Hx];
    destruct (bool_decide_reflect (y = rbrace)) as [->|Hy]; simpl;
    split; intros [=]; by subst.
Qed.

Lemma re_match_open s1 :
  match' (lbrace :: lbrace :: s1) =
  match span' s1 with
  | (c :: w, r) => (fun rest => (c :: w, rest)) <$> close' r
  | _ => None
  end.
Proof. unfold re_match. by rewrite !bool_decide_eq_true_2. Qed.

Lemma re_match_not_open c s : c <> lbrace -> match' (c :: s) = None.
Proof.
  intros Hc. unfold re_match. destruct s as [|b s]; [done|].
  by rewrite (bool_decide_eq_false_2 (c = lbrace)).
Qed.

Lemma re_match_not_open2 c s : c <> lbrace -> match' (lbrace :: c :: s) = None.
Proof.
  intros Hc. unfold re_match.
  by rewrite (bool_decide_eq_false_2 (c = lbrace)), andb_false_r.
Qed.

Lemma word_not_lbrace c : word c = true -> c <> lbrace.
Proof. intros Hc ->. congruence. Qed.

Lemma re_match_inv s w rest :
  match' s = Some (w, rest) ->
  s = ([lbrace; lbrace] ++ w ++ [rbrace; rbrace] ++ rest)%list /\
  w <> [] /\ forallb word w = true.
Proof.
  destruct s as [|a [|b s1]]; try done.
  destruct (decide (a = lbrace)) as [->|Ha];
    [|by rewrite re_match_not_open].
  destruct (decide (b = lbrace)) as [->|Hb];
    [|by rewrite re_match_not_open2].
  rewrite re_match_open.
  destruct (span' s1) as [[|c w'] r] eqn:Hs; [done|].
  destruct (close' r) as [rest'|] eqn:Hr; [|done].
  intros [= <- <-]. apply re_close_iff in Hr as ->.
  apply re_span_spec in Hs as [-> Hw]. done.
Qed.

Lemma re_match_iff s w rest :
  match' s = Some (w, rest) <->
  s = ([lbrace; lbrace] ++ w ++ [rbrace; rbrace] ++ rest)%list /\
  w <> [] /\ forallb word w = true.
Proof.
  split; [apply re_match_inv|].
  intros (-> & Hne & Hw). cbn [app]. rewrite re_match_open.
  rewrite (re_span_app w rbrace (rbrace :: rest) Hw word_rbrace).
  destruct w as [|c w]; [done|].
  by rewrite (proj2 (re_close_iff _ rest)).
Qed.

Lemma re_match_shorter s w rest :
  match' s = Some (w, rest) -> (List.length rest < List.length s)%nat.
Proof.
  intros (-> & _ & _)%re_match_inv. rewrite !length_app. simpl. lia.
Qed.

Lemma re_findall_cons c s :
  findall' (c :: s) =
  match match' (c :: s) with
  | Some (w, rest) => w :: findall' rest
  | None => findall' s
  end.
Proof.
  simp re_findall.
  destruct (inspect (re_match lbrace rbrace word (c :: s))) as [[[w rest]|] Hm];
    simp re_findall; by rewrite Hm.
Qed.

Lemma re_occurrences_skip_word w r :
  forallb word w = true -> occurrences' (w ++ r) = occurrences' r.
Proof.
  induction w as [|x w IH]; [done|]. cbn [forallb].
  intros [Hx Hw]%andb_prop. cbn [app re_occurrences].
  rewrite (re_match_not_open _ _ (word_not_lbrace _ Hx)). by apply IH.
Qed.

Lemma re_occurrences_after_match c s w rest :
  match' (c :: s) = Some (w, rest) -> occurrences' s = occurrences' rest.
Proof.
  intros (Hs & Hne & Hw)%re_match_iff. cbn [app] in Hs. injection Hs as -> ->.
  destruct w as [|x w]; [done|].
  cbn [forallb] in Hw. apply andb_prop in Hw as [Hx Hw].
  cbn [app re_occurrences].
  rewrite (re_match_not_open2 _ _ (word_not_lbrace _ Hx)).
  rewrite (re_match_not_open _ _ (word_not_lbrace _ Hx)).
  rewrite (re_occurrences_skip_word w _ Hw). cbn [re_occurrences].
  by rewrite !re_match_not_open by done.
Qed.

Lemma re_findall_occurrences s : findall' s = occurrences' s.
Proof.
  remember (List.length s) as n eqn:Hn. revert s Hn.
  induction n as [n IH] using lt_wf_ind. intros [|c s] Hn; [by simp re_findall|].
  rewrite re_findall_cons. cbn [re_occurrences].
  destruct (match' (c :: s)) as [[w rest]|] eqn:Hm.
  - rewrite (re_occurrences_after_match _ _ _ _ Hm). f_equal.
    apply (IH (List.length rest)); [|done].
    subst n. by eapply re_match_shorter.
  - apply (IH (List.length s)); [|done]. subst n. simpl. lia.
Qed.

Lemma re_occurrences_from pre s :
  occurrences' s =
  omap (re_placeholder_at lbrace rbrace word (pre ++ s))
       (seq (List.length pre) (List.length s)).
Proof.
  revert pre; induction s as [|c s IH]; intros pre; [done|].
  cbn [re_occurrences List.length seq omap list_omap].
  unfold re_placeholder_at at 1. rewrite drop_app_length.
  specialize (IH (pre ++ [c])%list).
  rewrite <- app_assoc, length_app in IH. cbn [app List.length] in IH.
  rewrite Nat.add_1_r in IH. rewrite <- IH.
  by destruct (match' (c :: s)) as [[w rest]|].
Qed.

Lemma re_placeholder_at_iff body i w :
  re_placeholder_at lbrace rbrace word body i = Some w <->
  re_is_placeholder_at lbrace rbrace word body i w.
Proof.
  unfold re_placeholder_at, re_is_placeholder_at. split.
  - destruct (match' (drop i body)) as [[w' rest]|] eqn:Hm; [|done].
    intros [= <-]. apply re_match_iff in Hm as (Hd & Hne & Hw).
    exists (take i body), rest. split_and!; try done.
    + by rewrite <- Hd, take_drop.
    + apply length_take_le.
      destruct (decide (i <= List.length body)%nat) as [|Hgt]; [done|].
      rewrite drop_ge in Hd by lia. done.
  - intros (pre & post & -> & <- & Hne & Hw).
    rewrite drop_app_length.
    by rewrite (proj2 (re_match_iff _ w post)).
Qed.

(** What the scan returns, for any alphabet whose word class holds
    neither brace. *)
Lemma re_findall_exact :
  (forall body,
      findall' body
      = omap (re_placeholder_at lbrace rbrace word body)
             (seq 0 (List.length body))) /\
  (forall body i w,
      re_placeholder_at lbrace rbrace word body i = Some w <->
      re_is_placeholder_at lbrace rbrace word body i w) /\
  (forall body,
      (forall i w, ~ re_is_placeholder_at lbrace rbrace word body i w) ->
      findall' body = []).
Proof.
  split_and!.
  - intros body. rewrite re_findall_occurrences.
    apply (re_occurrences_from [] body).
  - apply re_placeholder_at_iff.
  - intros body Hnone. rewrite re_findall_occurrences.
    rewrite (re_occurrences_from [] body).
    apply omap_all_None. intros i.
    destruct (re_placeholder_at lbrace rbrace word ([] ++ body) i) as [w|] eqn:Hw;
      [|done].
    by apply re_placeholder_at_iff, Hnone in Hw.
Qed.

Lemma re_findall_names body :
  Forall (fun w => w <> [] /\ forallb word w = true) (findall' body) /\
  (re_placeholders_length (findall' body) <= List.length body)%nat.
Proof.
  remember (List.length body) as n eqn:Hn. revert body Hn.
  induction n as [n IH] using lt_wf_ind. intros [|c s] Hn.
  { simp re_findall. split; [constructor|]. unfold re_placeholders_length. simpl. lia. }
  rewrite re_findall_cons.
  destruct (match' (c :: s)) as [[w rest]|] eqn:Hm.
  - pose proof Hm as (Hs & Hne & Hw)%re_match_inv.
    assert (Hlen : List.length (c :: s)
                   = (List.length w + 4 + List.length rest)%nat).
    { rewrite Hs, !length_app. simpl. lia. }
    destruct (IH (List.length rest)) with (body := rest) as [Hall Hsum];
      [lia|done|].
    split; [by constructor|].
    unfold re_placeholders_length in *. cbn [fmap list_fmap sum_list].
    subst n. cbn [List.length] in Hlen |- *. unfold id in *. lia.
  - destruct (IH (List.length s)) with (body := s) as [Hall Hsum];
      [subst n; simpl; lia|done|].
    split; [done|]. subst n. simpl. lia.
Qed.

Lemma re_close_app r c b :
  c <> rbrace ->
  close' (r ++ c :: b) = (fun rest => (rest ++ c :: b)%list) <$> close' r.
Proof.
  intros Hc. unfold re_close. destruct r as [|x [|y r]]; cbn [app].
  - destruct b; [done|].
    by rewrite (bool_decide_eq_false_2 (c = rbrace)).
  - by rewrite (bool_decide_eq_false_2 (c = rbrace)), andb_false_r.
  - by destruct (bool_decide (x = rbrace) && bool_decide (y = rbrace)).
Qed.

Lemma re_span_app_sep x c b :
  word c = false ->
  span' (x ++ c :: b) = ((span' x).1, ((span' x).2 ++ c :: b)%list).
Proof.
  intros Hc. induction x as [|y x IH]; cbn [app re_span].
  - by rewrite Hc.
  - destruct (word y); [|done]. rewrite IH. by destruct (span' x).
Qed.

Lemma re_match_app_sep x c b :
  word c = false -> c <> lbrace -> c <> rbrace ->
  match' (x ++ c :: b)
  = (fun wr => (wr.1, (wr.2 ++ c :: b)%list)) <$> match' x.
Proof.
  intros Hw Ho Hc. destruct x as [|x0 x]; cbn [app].
  { by rewrite re_match_not_open. }
  destruct (decide (x0 = lbrace)) as [->|H0];
    [|by rewrite !re_match_not_open].
  destruct x as [|x1 x]; cbn [app].
  { by rewrite re_match_not_open2. }
  destruct (decide (x1 = lbrace)) as [->|H1];
    [|by rewrite !re_match_not_open2].
  rewrite !re_match_open, re_span_app_sep by done.
  destruct (span' x) as [[|y w] r]; [done|]. cbn [fst snd].
  rewrite re_close_app by done. by destruct (close' r).
Qed.

Lemma re_occurrences_app_sep a c b :
  word c = false -> c <> lbrace -> c <> rbrace ->
  occurrences' (a ++ c :: b) = (occurrences' a ++ occurrences' b)%list.
Proof.
  intros Hw Ho Hc. induction a as [|x a IH]; cbn [app re_occurrences].
  - by rewrite re_match_not_open.
  - rewrite app_comm_cons, re_match_app_sep, IH by done.
    by destruct (match' (x :: a)) as [[w r]|].
Qed.

End PatternFacts.

Section PatternOnStrings.

Lemma list_ascii_of_string_app a b :
  list_ascii_of_string (a +:+ b)
  = (list_ascii_of_string a ++ list_ascii_of_string b)%list.
Proof.
  induction a as [|c a IH]; [by rewrite append_nil|].
  rewrite append_cons. simpl. by rewrite IH.
Qed.

Lemma string_of_list_ascii_app a b :
  string_of_list_ascii (a ++ b)
  = string_of_list_ascii a +:+ string_of_list_ascii b.
Proof.
  induction a as [|c a IH]; [by rewrite append_nil|].
  cbn [app string_of_list_ascii]. by rewrite append_cons, IH.
Qed.

Lemma string_forallb_list p s :
  string_forallb p s = forallb p (list_ascii_of_string s).
Proof. induction s as [|c s IH]; [done|]. simpl. by rewrite IH. Qed.

Lemma match_placeholder_re_match s :
  match_placeholder s
  = (fun wr => (string_of_list_ascii wr.1, string_of_list_ascii wr.2))
      <$> re_match "{"%char "}"%char is_word (list_ascii_of_string s).
Proof.
  destruct (match_placeholder s) as [[w rest]|] eqn:Hm.
  - apply match_placeholder_iff in Hm as (-> & Hne & Hw).
    rewrite !list_ascii_of_string_app.
    rewrite (proj2 (re_match_iff "{"%char "}"%char is_word eq_refl
                      _ (list_ascii_of_string w) (list_ascii_of_string rest))).
    + simpl. by rewrite !string_of_list_ascii_of_string.
    + split_and!; [done| |by rewrite <- string_forallb_list].
      by destruct w.
  - destruct (re_match "{"%char "}"%char is_word (list_ascii_of_string s))
      as [[w rest]|] eqn:Hr; [|done].
    apply (re_match_iff _ _ _ eq_refl) in Hr as (Hs & Hne & Hw).
    assert (Some (string_of_list_ascii w, string_of_list_ascii rest) = None);
      [|done].
    rewrite <- Hm. symmetry. apply match_placeholder_iff. split_and!.
    + rewrite <- (string_of_list_ascii_of_string s), Hs.
      by rewrite !string_of_list_ascii_app.
    + by destruct w.
    + by rewrite string_forallb_list, list_ascii_of_string_of_list_ascii.
Qed.

Lemma placeholder_occurrences_re s :
  placeholder_occurrences s
  = string_of_list_ascii
      <$> re_occurrences "{"%char "}"%char is_word (list_ascii_of_string s).
Proof.
  induction s as [|c s IH]; [done|].
  cbn [placeholder_occurrences list_ascii_of_string re_occurrences].
  rewrite match_placeholder_re_match. cbn [list_ascii_of_string].
  destruct (re_match "{"%char "}"%char is_word (c :: list_ascii_of_string s))
    as [[w rest]|]; simpl; by rewrite IH.
Qed.

Lemma findall_re_findall s :
  findall s
  = string_of_list_ascii
      <$> re_findall "{"%char "}"%char is_word (list_ascii_of_string s).
Proof.
  rewrite findall_occurrences, placeholder_occurrences_re.
  by rewrite (re_findall_occurrences "{"%char "}"%char is_word).
Qed.

End PatternOnStrings.

Section ExtractorTheorems.

(** C1. For every alphabet with a word class that holds neither brace
    (Python's [str] with the [\w] of [re] is one), the scan returns
    exactly the identifiers of the placeholders [{{identifier}}] of the
    body, in the order of the offsets where they occur; an offset holds a
    placeholder exactly when the body reads two opening braces, one or
    more word characters and two closing braces there; a body without
    placeholders gives the empty list.  [findall], which the handlers
    call, is this scan on 8-bit characters with the word class of ASCII,
    and the spec's three examples evaluate as stated.  The function is
    total by construction. *)
Theorem findall_placeholders_in_order :
  (forall (char : Type) (char_eq_dec : EqDecision char)
          (lbrace rbrace : char) (word : char -> bool),
      word lbrace = false -> word rbrace = false -> lbrace <> rbrace ->
      (forall body,
          re_findall lbrace rbrace word body
          = omap (re_placeholder_at lbrace rbrace word body)
                 (seq 0 (List.length body))) /\
      (forall body i w,
          re_placeholder_at lbrace rbrace word body i = Some w <->
          re_is_placeholder_at lbrace rbrace word body i w) /\
      (forall body,
          (forall i w, ~ re_is_placeholder_at lbrace rbrace word body i w) ->
          re_findall lbrace rbrace word body = [])) /\
  (forall body,
      findall body
      = string_of_list_ascii
          <$> re_findall "{"%char "}"%char is_word (list_ascii_of_string body)) /\
  findall "Hello {{name}}, your {{order_id}} shipped" = ["name"; "order_id"] /\
  findall "no placeholders here" = [] /\
  findall "{{ not_an_identifier! }}" = [].
Proof.
  split_and!.
  - intros char char_eq_dec lbrace rbrace word Hl Hr Hne.
    by apply re_findall_exact.
  - apply findall_re_findall.
  - by vm_compute.
  - by vm_compute.
  - by vm_compute.
Qed.

Lemma findall_placeholders_in_order_witness :
  re_findall "{"%char "}"%char is_word (list_ascii_of_string "a{{b}}c")
  = [list_ascii_of_string "b"] /\
  ~ re_is_placeholder_at "{"%char "}"%char is_word
      (list_ascii_of_string "a{{b}}c") 0 (list_ascii_of_string "b").
Proof.
  destruct findall_placeholders_in_order as (Hscan & _).
  destruct (Hscan ascii _ "{"%char "}"%char is_word) as (Hall & Hat & _);
    [reflexivity|reflexivity|discriminate|].
  split.
  - rewrite Hall. by vm_compute.
  - intros H%Hat. by vm_compute in H.
Defined.

(** X19. For every alphabet with a word class that does not hold the
    closing brace, every extracted variable is a name of one or more
    word characters, and the placeholders found do not overlap: together
    they are no longer than the body. *)
Theorem findall_names_are_identifiers
    (char : Type) (char_eq_dec : EqDecision char)
    (lbrace rbrace : char) (word : char -> bool) (body : list char) :
  word rbrace = false ->
  Forall (fun w => w <> [] /\ forallb word w = true)
         (re_findall lbrace rbrace word body) /\
  (re_placeholders_length (re_findall lbrace rbrace word body)
   <= List.length body)%nat.
Proof. intros _. apply re_findall_names. Qed.

Lemma findall_names_are_identifiers_witness :
  Forall (fun w => w <> [] /\ forallb is_word w = true)
         (re_findall "{"%char "}"%char is_word
            (list_ascii_of_string "{{a}}{{b_1}} {{ c }}")) /\
  (re_placeholders_length
     (re_findall "{"%char "}"%char is_word
        (list_ascii_of_string "{{a}}{{b_1}} {{ c }}"))
   <= 20)%nat.
Proof.
  apply (findall_names_are_identifiers ascii _ "{"%char "}"%char is_word
           (list_ascii_of_string "{{a}}{{b_1}} {{ c }}")).
  reflexivity.
Defined.

(** X20. No placeholder reaches across a character that is neither a
    word character nor a brace: for every alphabet with a word class
    that holds neither brace, the variables of a body cut at such a
    character are those of the part before it followed by those of the
    part after it. *)
Theorem findall_splits_at_separator
    (char : Type) (char_eq_dec : EqDecision char)
    (lbrace rbrace : char) (word : char -> bool) (a : list char) (c : char)
    (b : list char) :
  word lbrace = false -> word rbrace = false -> lbrace <> rbrace ->
  word c = false -> c <> lbrace -> c <> rbrace ->
  re_findall lbrace rbrace word (a ++ c :: b)
  = (re_findall lbrace rbrace word a ++ re_findall lbrace rbrace word b)%list.
Proof.
  intros Hl Hr Hne Hw Ho Hc.
  rewrite !re_findall_occurrences by done. by apply re_occurrences_app_sep.
Qed.

Lemma findall_splits_at_separator_witness :
  re_findall "{"%char "}"%char is_word
    (list_ascii_of_string "Dear {{name}}" ++
     ","%char :: list_ascii_of_string " your {{order_id}} shipped")
  = (re_findall "{"%char "}"%char is_word (list_ascii_of_string "Dear {{name}}") ++
     re_findall "{"%char "}"%char is_word
       (list_ascii_of_string " your {{order_id}} shipped"))%list.
Proof. by apply findall_splits_at_separator. Defined.

End ExtractorTheorems.

Section Tags.

Lemma py_split_nonempty sep s : py_split sep s <> [].
Proof.
  induction s as [|c s IH]; simpl; [done|].
  destruct (Ascii.eqb c sep); [done|]. by destruct (py_split sep s).
Qed.

Lemma py_join_cons sep p q ps :
  py_join sep (p :: q :: ps) = p +:+ sep +:+ py_join sep (q :: ps).
Proof. reflexivity. Qed.

Lemma py_join_split sep s :
  py_join (String sep "") (py_split sep s) = s.
Proof.
  induction s as [|c s IH]; [done|]. simpl.
  pose proof (py_split_nonempty sep s) as Hne.
  destruct (Ascii.eqb_spec c sep) as [->|Hc].
  - destruct (py_split sep s) as [|q ps]; [done|].
    rewrite py_join_cons, IH. by rewrite append_nil, append_cons, append_nil.
  - destruct (py_split sep s) as [|q ps]; [done|].
    destruct ps as [|q' ps].
    + simpl in *. by rewrite IH.
    + rewrite py_join_cons in *. rewrite append_cons. by rewrite IH.
Qed.

Lemma py_split_no_sep sep s :
  Forall (fun piece => string_forallb (fun c => negb (Ascii.eqb c sep)) piece = true)
         (py_split sep s).
Proof.
  induction s as [|c s IH]; simpl; [by repeat constructor|].
  destruct (Ascii.eqb c sep) eqn:Hc; [by constructor|].
  destruct (py_split sep s) as [|q ps].
  { constructor; [simpl; by rewrite Hc|constructor]. }
  inversion IH; subst. constructor; [|done]. simpl. by rewrite Hc.
Qed.

(** C9, as the code has it.  The tags field is cut at every comma and
    each piece is kept as it is, spaces included: joining the tags with
    commas gives the field back, no tag holds a comma, and the result is
    empty exactly for the empty field. *)
Theorem parse_tags_cuts_at_commas :
  parse_tags "" = [] /\
  forall field,
    py_join "," (parse_tags field) = field /\
    Forall (fun tag => no_comma tag = true) (parse_tags field) /\
    (parse_tags field = [] <-> field = "").
Proof.
  split; [done|]. intros field. unfold parse_tags.
  destruct field as [|c s]; [by repeat constructor|]. split_and!.
  - apply py_join_split.
  - apply py_split_no_sep.
  - split; [|done]. intros H. by apply py_split_nonempty in H.
Qed.

(** C9 as claimed fails: the second tag of ["a, b"] keeps its leading
    space. *)
Lemma parse_tags_keeps_spaces :
  parse_tags "a, b" = ["a"; " b"] /\
  ~ Forall (fun tag => lstrip tag = tag) (parse_tags "a, b").
Proof.
  split; [done|]. intros H. vm_compute in H.
  inversion H as [|? ? _ H2]; subst. inversion H2 as [|? ? H3 _]; subst. done.
Qed.

End Tags.

Section Store.

Implicit Types (db : datastore) (t : PromptTemplate).

Lemma read_form_Some form f :
  read_form form = Some f <->
  form !! "template" = Some (f_template f) /\ form !! "name" = Some (f_name f) /\
  form !! "description" = Some (f_description f) /\
  form !! "category" = Some (f_category f) /\ form !! "tags" = Some (f_tags f).
Proof.
  unfold read_form. split.
  - destruct (form !! "template") as [a|]; [|done].
    destruct (form !! "name") as [b|]; [|done].
    destruct (form !! "description") as [c|]; [|done].
    destruct (form !! "category") as [d|]; [|done].
    destruct (form !! "tags") as [e|]; [|done].
    by intros [= <-].
  - intros (-> & -> & -> & -> & ->). simpl. by destruct f.
Qed.

Lemma read_form_None form :
  read_form form = None <->
  exists k, k ∈ ["template"; "name"; "description"; "category"; "tags"] /\
            form !! k = None.
Proof.
  unfold read_form. split.
  - intros H.
    destruct (form !! "template") eqn:H1; [|exists "template"; set_solver].
    destruct (form !! "name") eqn:H2; [|exists "name"; set_solver].
    destruct (form !! "description") eqn:H3; [|exists "description"; set_solver].
    destruct (form !! "category") eqn:H4; [|exists "category"; set_solver].
    destruct (form !! "tags") eqn:H5; [|exists "tags"; set_solver].
    done.
  - intros (k & Hk & Hnone).
    rewrite !elem_of_cons, elem_of_nil in Hk.
    destruct Hk as [->|[->|[->|[->|[->|[]]]]]]; rewrite Hnone; simpl;
      repeat (match goal with
              | |- context [form !! ?x] => destruct (form !! x); simpl
              end); done.
Qed.

Lemma prepare_for_put_dated now t : is_Some (created_date (prepare_for_put now t)).
Proof. simpl. destruct (created_date t); eauto. Qed.

(** Every entity of a datastore that was filled by [put] has its
    creation date. *)
Lemma put_dated now key t db : all_dated db -> all_dated (put now key t db).
Proof.
  intros Hdb id t'. unfold put. rewrite lookup_insert.
  case_decide; [|by apply Hdb]. intros [= <-]. apply prepare_for_put_dated.
Qed.

Lemma delete_dated key db : all_dated db -> all_dated (key_delete key db).
Proof.
  intros Hdb id t'. unfold key_delete. rewrite lookup_delete.
  case_decide; [done|by apply Hdb].
Qed.

Lemma empty_dated : all_dated ∅.
Proof. by intros id t. Qed.

Lemma create_template_dated method form now new_id db :
  all_dated db -> all_dated (create_template method form now new_id db).1.
Proof.
  intros Hdb. unfold create_template.
  destruct method; [done|]. destruct (read_form form); [|done].
  by apply put_dated.
Qed.

Lemma edit_template_dated method template_id form now db :
  all_dated db -> all_dated (edit_template method template_id form now db).1.
Proof.
  intros Hdb. unfold edit_template.
  destruct (get_by_id template_id db); [|done].
  destruct method; [done|]. destruct (read_form form); [|done].
  by apply put_dated.
Qed.

Lemma delete_template_dated template_id db :
  all_dated db -> all_dated (delete_template template_id db).1.
Proof.
  intros Hdb. unfold delete_template.
  destruct (get_by_id template_id db); [|done]. by apply delete_dated.
Qed.

End Store.

Section Forms.

Implicit Types (db : datastore) (t : PromptTemplate).

(** C8 on the code: a create request with an empty category field
    writes the empty string, not the default of the property. *)
Lemma create_template_keeps_empty_category :
  (create_template POST greeting_form 100 1 ∅).1 !! 1%positive = Some greeting /\
  category greeting = "" /\ category greeting <> "General".
Proof. by vm_compute. Qed.

End Forms.

Section RenderApi.

Variable jinja : string -> list (string * json) -> string + string.
Variable nonmapping_exn : string -> json -> string.

Implicit Types (db : datastore) (t : PromptTemplate).

Abbreviation render := (render_template_api jinja nonmapping_exn).

(** The handler has two outcomes on a stored template: the renderer
    returned text and the counted entity is written, or the answer is a
    400 and nothing is written. *)
Lemma render_template_api_cases template_id request_json now db t :
  db !! template_id = Some t ->
  (exists kwargs rendered,
      request_variables request_json = JDict kwargs /\
      jinja (template t) kwargs = inl rendered /\
      render template_id request_json now db
      = (put now template_id (count_use t) db,
         Json (RenderResult rendered (name t) (dict_keys kwargs)) 200)) \/
  (exists e,
      render template_id request_json now db = (db, Json (ErrorResult e) 400) /\
      forall kwargs, request_variables request_json = JDict kwargs ->
                     exists e', jinja (template t) kwargs = inr e').
Proof.
  intros Ht. unfold render_template_api, get_by_id. rewrite Ht.
  destruct (request_variables request_json) as [| | | | |kwargs];
    try (right; eexists; split; [reflexivity|done]).
  destruct (jinja (template t) kwargs) as [rendered|e] eqn:Hj.
  - left. by exists kwargs, rendered.
  - right. eexists. split; [reflexivity|]. intros ? [= <-]. eauto.
Qed.

Lemma render_template_api_dated template_id request_json now db :
  all_dated db -> all_dated (render template_id request_json now db).1.
Proof.
  intros Hdb. unfold render_template_api.
  destruct (get_by_id template_id db); [|done].
  destruct (request_variables request_json); try done.
  destruct (jinja _ _); [|done]. by apply put_dated.
Qed.

End RenderApi.

Section Fragment.

Implicit Types (kwargs : list (string * json)) (ps : list jinja_piece).

Lemma jinja_instance_agrees : jinja_agrees jinja_instance.
Proof.
  intros body kwargs. unfold jinja_instance.
  destruct (jinja_fragment body kwargs); eauto.
Qed.

Lemma string_mem_spec x l : string_mem x l = true <-> x ∈ l.
Proof.
  unfold string_mem. rewrite existsb_exists. split.
  - intros (y & Hy & ->%String.eqb_eq). by apply list_elem_of_In.
  - intros H. exists x. split; [by apply list_elem_of_In|apply String.eqb_refl].
Qed.

Lemma string_mem_false x l : string_mem x l = false <-> x ∉ l.
Proof.
  rewrite <- string_mem_spec. by destruct (string_mem x l).
Qed.

Lemma string_mem_ext x l1 l2 :
  (x ∈ l1 <-> x ∈ l2) -> string_mem x l1 = string_mem x l2.
Proof.
  intros H. destruct (string_mem x l2) eqn:H2.
  - by apply string_mem_spec, H, string_mem_spec.
  - apply string_mem_false. intros H1%H. by apply string_mem_false in H2.
Qed.

Lemma dict_get_app kw1 kw2 y :
  dict_get (kw1 ++ kw2) y =
  match dict_get kw1 y with Some v => Some v | None => dict_get kw2 y end.
Proof.
  induction kw1 as [|[k v] kw1 IH]; [done|]. simpl.
  by destruct (String.eqb k y).
Qed.

Lemma dict_get_None kwargs y : y ∉ dict_keys kwargs -> dict_get kwargs y = None.
Proof.
  induction kwargs as [|[k v] kw IH]; [done|]. simpl.
  intros Hy. apply not_elem_of_cons in Hy as [Hne Hy].
  destruct (String.eqb_spec k y); [done|by apply IH].
Qed.

Lemma dict_get_elem kwargs y v : dict_get kwargs y = Some v -> (y, v) ∈ kwargs.
Proof.
  induction kwargs as [|[k v'] kw IH]; [done|]. simpl.
  destruct (String.eqb_spec k y) as [->|].
  - intros [= ->]. by left.
  - intros H. right. by apply IH.
Qed.

Lemma fmap_append_empty (o : option string) : String.append "" <$> o = o.
Proof. by destruct o. Qed.

(** Binding an absent name to the empty string changes no output. *)
Lemma render_pieces_absent kwargs x ps :
  x ∉ dict_keys kwargs ->
  render_pieces (kwargs ++ [(x, JStr "")]) ps = render_pieces kwargs ps.
Proof.
  intros Hx. induction ps as [|[c|y] ps IH]; [done| |]; simpl.
  - by rewrite IH.
  - rewrite dict_get_app. destruct (dict_get kwargs y) as [v|] eqn:Hy.
    + by rewrite IH.
    + simpl. destruct (String.eqb_spec x y) as [->|]; [|done].
      simpl. by rewrite IH, fmap_append_empty.
Qed.

(** A key that no expression prints changes no output. *)
Lemma render_pieces_extra kw1 k v kw2 ps :
  k ∉ printed_names ps ->
  render_pieces (kw1 ++ (k, v) :: kw2) ps = render_pieces (kw1 ++ kw2) ps.
Proof.
  induction ps as [|[c|y] ps IH]; [done| |]; simpl; intros Hk.
  - by rewrite IH.
  - apply not_elem_of_cons in Hk as [Hne Hk].
    rewrite !dict_get_app. simpl.
    destruct (String.eqb_spec k y) as [->|]; [done|].
    by rewrite IH.
Qed.

Lemma render_pieces_plain kwargs ps :
  forallb (fun kv => match py_str kv.2 with Some _ => true | None => false end)
          kwargs = true ->
  is_Some (render_pieces kwargs ps).
Proof.
  intros Hkw. induction ps as [|[c|y] ps [out IH]]; simpl; [eauto| |].
  { rewrite IH. eauto. }
  rewrite IH.
  destruct (dict_get kwargs y) as [v|] eqn:Hy; [|eauto].
  apply dict_get_elem, list_elem_of_In in Hy.
  rewrite forallb_forall in Hkw. specialize (Hkw _ Hy). simpl in Hkw.
  destruct (py_str v); [eauto|done].
Qed.

Lemma not_special_not_not names :
  existsb (fun x => string_mem x jinja_special_names) names = false ->
  string_mem "not" names = false.
Proof.
  induction names as [|x names IH]; [done|]. cbn [existsb].
  intros [Hx Hn]%orb_false_elim.
  change (string_mem "not" (x :: names))
    with (String.eqb "not" x || string_mem "not" names).
  rewrite (IH Hn), orb_false_r.
  destruct (String.eqb_spec "not" x) as [<-|]; [|done]. by vm_compute in Hx.
Qed.

Lemma plain_template_renders body kwargs :
  plain_template body = true -> plain_mapping kwargs = true ->
  exists out, jinja_fragment body kwargs = Rendered out.
Proof.
  unfold plain_template, plain_mapping, jinja_fragment.
  intros Hps [Hself Hvals]%andb_prop.
  apply negb_true_iff in Hself.
  destruct (jinja_pieces body) as [ps|]; [|done].
  apply negb_true_iff in Hps. rewrite (not_special_not_not _ Hps), Hself, Hps.
  destruct (render_pieces_plain kwargs ps Hvals) as [out ->]. eauto.
Qed.

Lemma jinja_fragment_absent body kwargs x :
  x ∉ dict_keys kwargs -> x <> "self" ->
  jinja_fragment body (kwargs ++ [(x, JStr "")]) = jinja_fragment body kwargs.
Proof.
  intros Hx Hself. unfold jinja_fragment.
  destruct (jinja_pieces body) as [ps|]; [|done].
  rewrite render_pieces_absent by done.
  replace (string_mem "self" (dict_keys (kwargs ++ [(x, JStr "")])))
    with (string_mem "self" (dict_keys kwargs)); [done|].
  apply string_mem_ext. unfold dict_keys.
  rewrite fmap_app, elem_of_app. simpl. rewrite elem_of_cons, elem_of_nil.
  intuition congruence.
Qed.

Lemma jinja_fragment_extra body kw1 k v kw2 :
  k <> "self" -> ~ prints body k ->
  jinja_fragment body (kw1 ++ (k, v) :: kw2) = jinja_fragment body (kw1 ++ kw2).
Proof.
  intros Hself Hk. unfold jinja_fragment.
  destruct (jinja_pieces body) as [ps|] eqn:Hlex; [|done].
  rewrite render_pieces_extra by (intros H; apply Hk; by exists ps).
  replace (string_mem "self" (dict_keys (kw1 ++ (k, v) :: kw2)))
    with (string_mem "self" (dict_keys (kw1 ++ kw2))); [done|].
  apply string_mem_ext. unfold dict_keys.
  rewrite !fmap_app, !elem_of_app. simpl. rewrite elem_of_cons.
  intuition congruence.
Qed.

End Fragment.

Section RenderOnFragment.

Variable jinja : string -> list (string * json) -> string + string.
Variable nonmapping_exn : string -> json -> string.
Hypothesis jinja_ok : jinja_agrees jinja.

Implicit Types (db : datastore) (t : PromptTemplate).

Abbreviation render' := (render_template_api jinja nonmapping_exn).

Lemma jinja_rendered body kwargs out :
  jinja_fragment body kwargs = Rendered out -> jinja body kwargs = inl out.
Proof. intros H. pose proof (jinja_ok body kwargs) as Hj. by rewrite H in Hj. Qed.

Lemma request_variables_dict kwargs :
  request_variables (Some (JDict kwargs)) = JDict kwargs.
Proof. by destruct kwargs. Qed.

Lemma render_on_fragment template_id kwargs now db t out :
  db !! template_id = Some t ->
  jinja_fragment (template t) kwargs = Rendered out ->
  render' template_id (Some (JDict kwargs)) now db
  = (put now template_id (count_use t) db,
     Json (RenderResult out (name t) (dict_keys kwargs)) 200).
Proof.
  intros Ht Hout. unfold render_template_api, get_by_id.
  by rewrite Ht, request_variables_dict, (jinja_rendered _ _ _ Hout).
Qed.

End RenderOnFragment.

Section Search.

Implicit Types (db : datastore) (t : PromptTemplate).

Lemma prefix_spec a b : String.prefix a b = true <-> exists post, b = a +:+ post.
Proof.
  revert b; induction a as [|x a IH]; intros b.
  - split; [intros _; by exists b|]. by destruct b.
  - destruct b as [|y b]; simpl.
    + split; [done|]. by intros [post H].
    + destruct (ascii_dec x y) as [->|Hne].
      * rewrite IH. split; intros [post H]; exists post.
        -- by rewrite append_cons, H.
        -- rewrite append_cons in H. by injection H.
      * split; [done|]. intros [post H]. rewrite append_cons in H.
        by injection H as -> _.
Qed.

Lemma py_in_spec a b :
  py_in a b = true <-> exists pre post, b = pre +:+ a +:+ post.
Proof.
  induction b as [|y b IH]; cbn [py_in].
  - rewrite orb_false_r, prefix_spec. split.
    + intros [post H]. by exists "", post.
    + intros (pre & post & H). destruct pre; [by exists post|done].
  - rewrite orb_true_iff, prefix_spec, IH. split.
    + intros [[post H]|(pre & post & H)].
      * by exists "", post.
      * exists (String y pre), post. by rewrite append_cons, H.
    + intros (pre & post & H). destruct pre as [|x pre].
      * left. by exists post.
      * right. rewrite append_cons in H. injection H as _ H.
        by exists pre, post.
Qed.

Lemma py_lower_empty q : py_lower q = "" <-> q = "".
Proof. by destruct q. Qed.

Lemma search_keeps_spec q tag t :
  search_keeps (py_lower q) tag t = true <->
  (q <> "" -> ci_substring q (name t) \/ ci_substring q (description t)) /\
  (tag <> "" -> tag ∈ tags t).
Proof.
  unfold search_keeps, ci_substring.
  rewrite <- !py_in_spec, <- string_mem_spec.
  destruct (String.eqb_spec (py_lower q) "") as [Hq|Hq];
    rewrite py_lower_empty in Hq;
    destruct (String.eqb_spec tag "") as [Htag|Htag];
    destruct (py_in (py_lower q) (py_lower (name t)));
    destruct (py_in (py_lower q) (py_lower (description t)));
    destruct (string_mem tag (tags t)); simpl; intuition congruence.
Qed.

Lemma fetch_spec keep db id t :
  (id, t) ∈ fetch keep db <-> db !! id = Some t /\ keep t = true.
Proof.
  unfold fetch. rewrite list_elem_of_In, filter_In, <- list_elem_of_In.
  by rewrite elem_of_map_to_list.
Qed.

Lemma fetch_NoDup keep db : NoDup (fetch keep db).
Proof.
  unfold fetch. apply NoDup_ListNoDup, List.NoDup_filter, NoDup_ListNoDup.
  apply NoDup_map_to_list.
Qed.

Lemma py_in_empty s : py_in "" s = true.
Proof. apply py_in_spec. by exists "", s. Qed.

Lemma search_keeps_with_spec lower q tag t :
  search_keeps_with lower (lower q) tag t = true <->
  (ci_substring_with lower q (name t) \/
   ci_substring_with lower q (description t)) /\
  (tag <> "" -> tag ∈ tags t).
Proof.
  unfold search_keeps_with, ci_substring_with.
  rewrite <- !py_in_spec, <- string_mem_spec.
  destruct (String.eqb_spec (lower q) "") as [Hq|Hq];
    [rewrite Hq, !py_in_empty|];
    destruct (String.eqb_spec tag "") as [Htag|Htag];
    try destruct (py_in (lower q) (lower (name t)));
    try destruct (py_in (lower q) (lower (description t)));
    destruct (string_mem tag (tags t)); simpl; intuition congruence.
Qed.



End Search.

Section IndexPage.

Implicit Types (db : datastore) (t : PromptTemplate).

Lemma date_le_refl a : date_le a a = true.
Proof. destruct a; simpl; [apply Z.leb_refl|done]. Qed.

Lemma date_le_trans a b c :
  date_le a b = true -> date_le b c = true -> date_le a c = true.
Proof.
  destruct a, b, c; simpl; try done. rewrite !Z.leb_le. lia.
Qed.

Lemma date_le_total a b : date_le a b = true \/ date_le b a = true.
Proof.
  destruct a, b; simpl; auto. rewrite !Z.leb_le. lia.
Qed.

#[local] Instance newer_first_trans : Transitive newer_first.
Proof.
  intros x y z. unfold newer_first. rewrite !Is_true_true.
  intros Hxy Hyz. by eapply date_le_trans.
Qed.

#[local] Instance newer_first_total : Total newer_first.
Proof.
  intros x y. unfold newer_first. rewrite !Is_true_true.
  destruct (date_le_total (created_date y.2) (created_date x.2)); auto.
Qed.

Lemma fetch_all db : fetch (fun _ => true) db = map_to_list db.
Proof.
  unfold fetch. induction (map_to_list db) as [|kv l IH]; [done|].
  simpl. by rewrite IH.
Qed.

Lemma index_templates_Permutation db : ctx_templates (index db) ≡ₚ map_to_list db.
Proof. unfold index. simpl. by rewrite merge_sort_Permutation, fetch_all. Qed.

(** X1. The listing page shows every stored template exactly once, and no
    template stands before one that was created later. *)
Theorem index_lists_all_newest_first db :
  let templates := ctx_templates (index db) in
  (forall id t, (id, t) ∈ templates <-> db !! id = Some t) /\
  NoDup templates /\
  List.length templates = size db /\
  StronglySorted
    (fun x y => date_le (created_date y.2) (created_date x.2) = true) templates.
Proof.
  cbn zeta. pose proof (index_templates_Permutation db) as Hperm. split_and!.
  - intros id t. by rewrite Hperm, elem_of_map_to_list.
  - rewrite Hperm. apply NoDup_map_to_list.
  - by rewrite Hperm, length_map_to_list.
  - unfold index. simpl.
    pose proof (StronglySorted_merge_sort newer_first (fetch (fun _ => true) db)) as H.
    revert H. generalize (merge_sort newer_first (fetch (fun _ => true) db)).
    intros l H. induction H as [|x l Hl IH Hx]; constructor; [done|].
    eapply Forall_impl; [exact Hx|]. intros y Hy. by apply Is_true_true.
Qed.

(** X2. The categories offered on the listing page are the categories of
    the stored templates, each one once. *)
Theorem index_categories_distinct db :
  NoDup (ctx_categories (index db)) /\
  forall c, c ∈ ctx_categories (index db) <->
            exists id t, db !! id = Some t /\ category t = c.
Proof.
  unfold index. simpl. split; [apply NoDup_elements|].
  intros c. rewrite elem_of_elements, elem_of_list_to_set, list_elem_of_fmap.
  split.
  - intros ([id t] & -> & Hin). exists id, t. split; [|done].
    rewrite merge_sort_Permutation, fetch_all in Hin.
    by apply elem_of_map_to_list.
  - intros (id & t & Hdb & <-). exists (id, t). split; [done|].
    rewrite merge_sort_Permutation, fetch_all. by apply elem_of_map_to_list.
Qed.

End IndexPage.

Section Served.

Variable jinja : string -> list (string * json) -> string + string.
Variable nonmapping_exn : string -> json -> string.

Implicit Types (db : datastore) (t : PromptTemplate) (req : request).

Abbreviation serve' := (serve jinja nonmapping_exn).
Abbreviation run' := (run jinja nonmapping_exn).
Abbreviation render_api := (render_template_api jinja nonmapping_exn).

(** What each writing handler leaves in the datastore. *)
Lemma create_template_db method form now new_id db :
  (create_template method form now new_id db).1 = db \/
  exists f, method = POST /\ read_form form = Some f /\
    (create_template method form now new_id db).1
    = <[new_id := prepare_for_put now
          {| name := f_name f; description := f_description f;
             template := f_template f; category := f_category f;
             tags := parse_tags (f_tags f); variables := findall (f_template f);
             created_date := None; modified_date := None; usage_count := 0 |}]> db.
Proof.
  unfold create_template. destruct method; [by left|].
  destruct (read_form form) as [f|]; [|by left]. right. by exists f.
Qed.

Lemma edit_template_db method template_id form now db :
  (edit_template method template_id form now db).1 = db \/
  exists t f, method = POST /\ db !! template_id = Some t /\ read_form form = Some f /\
    (edit_template method template_id form now db).1
    = <[template_id := prepare_for_put now
          {| name := f_name f; description := f_description f;
             template := f_template f; category := f_category f;
             tags := parse_tags (f_tags f); variables := findall (f_template f);
             created_date := created_date t; modified_date := modified_date t;
             usage_count := usage_count t |}]> db.
Proof.
  unfold edit_template, get_by_id.
  destruct (db !! template_id) as [t|] eqn:Ht; [|by left].
  destruct method; [by left|].
  destruct (read_form form) as [f|]; [|by left]. right. by exists t, f.
Qed.

Lemma render_template_api_db template_id request_json now db :
  (render_api template_id request_json now db = (db, (render_api template_id request_json now db).2) /\
   forall rendered template_name used status,
     (render_api template_id request_json now db).2
     <> Json (RenderResult rendered template_name used) status) \/
  exists t rendered used,
    db !! template_id = Some t /\
    render_api template_id request_json now db
    = (<[template_id := prepare_for_put now (count_use t)]> db,
       Json (RenderResult rendered (name t) used) 200).
Proof.
  unfold render_template_api, get_by_id.
  destruct (db !! template_id) as [t|] eqn:Ht; [|by left].
  destruct (request_variables request_json); try by left.
  destruct (jinja (template t) d) as [rendered|e]; [|by left].
  right. by exists t, rendered, (dict_keys d).
Qed.

Lemma delete_template_db template_id db :
  (delete_template template_id db).1 = delete template_id db.
Proof.
  unfold delete_template, get_by_id, key_delete.
  destruct (db !! template_id) eqn:H; [done|]. simpl. symmetry. by apply delete_id.
Qed.

Lemma serve_db now new_id req db :
  (serve' now new_id req db).1 =
  match req_route req, req_method req with
  | CreateTemplate, method =>
      (create_template method (req_form req) now new_id db).1
  | EditTemplate i, method => (edit_template method i (req_form req) now db).1
  | RenderTemplateApi i, POST => (render_api i (req_json req) now db).1
  | DeleteTemplate i, POST => (delete_template i db).1
  | _, _ => db
  end.
Proof.
  unfold serve. destruct (req_route req) as [|i| |i| |i|i];
    destruct (req_method req); try done;
    match goal with
    | |- context [match ?x with (_, _) => _ end] => by destruct x
    end.
Qed.

Lemma serve_reply now new_id req db :
  (serve' now new_id req db).2 =
  match req_route req, req_method req with
  | Index, GET => Listing (index db)
  | ViewTemplate i, GET => Responded (view_template i db)
  | CreateTemplate, method =>
      Responded (create_template method (req_form req) now new_id db).2
  | EditTemplate i, method =>
      Responded (edit_template method i (req_form req) now db).2
  | SearchTemplates, GET => Responded (search_templates (req_args req) db)
  | RenderTemplateApi i, POST => Responded (render_api i (req_json req) now db).2
  | DeleteTemplate i, POST => Responded (delete_template i db).2
  | _, _ => MethodNotAllowed
  end.
Proof.
  unfold serve. destruct (req_route req) as [|i| |i| |i|i];
    destruct (req_method req); try done;
    match goal with
    | |- context [match ?x with (_, _) => _ end] => by destruct x
    end.
Qed.


Lemma serve_touches_only_target_aux now new_id req db other :
  target new_id req <> Some other ->
  (serve' now new_id req db).1 !! other = db !! other.
Proof.
  rewrite serve_db. unfold target.
  destruct (req_route req) as [|i| |i| |i|i];
    destruct (req_method req); intros Hne; try done.
  - destruct (create_template_db POST (req_form req) now new_id db)
      as [->|(f & _ & _ & ->)]; [done|].
    apply lookup_insert_ne. congruence.
  - destruct (edit_template_db GET i (req_form req) now db)
      as [->|(t & f & ? & _)]; done.
  - destruct (edit_template_db POST i (req_form req) now db)
      as [->|(t & f & _ & _ & _ & ->)]; [done|].
    apply lookup_insert_ne. congruence.
  - destruct (render_template_api_db i (req_json req) now db)
      as [[-> _]|(t & rendered & used & _ & ->)]; [done|].
    apply lookup_insert_ne. congruence.
  - rewrite delete_template_db. apply lookup_delete_ne. congruence.
Qed.

(** X4. A request changes no entity but the one it names: the id in its
    route, or the newly allocated id for a create request. *)
Theorem serve_touches_only_target now new_id req db other :
  target new_id req <> Some other ->
  (serve jinja nonmapping_exn now new_id req db).1 !! other = db !! other.
Proof. apply serve_touches_only_target_aux. Qed.

(** The entity stored under [id] after a request: untouched, or written
    by the one handler that names it. *)
Lemma serve_entity now new_id req db id :
  let db' := (serve' now new_id req db).1 in
  db' !! id = db !! id \/
  (req_route req = CreateTemplate /\ id = new_id /\
   exists f, db' !! id = Some (prepare_for_put now (created_entity f))) \/
  (req_route req = EditTemplate id /\
   exists t f, db !! id = Some t /\
               db' !! id = Some (prepare_for_put now (edited_entity t f))) \/
  (req_route req = RenderTemplateApi id /\
   exists t, db !! id = Some t /\
             db' !! id = Some (prepare_for_put now (count_use t))) \/
  (req_route req = DeleteTemplate id /\ db' !! id = None).
Proof.
  cbn zeta.
  destruct (decide (target new_id req = Some id)) as [Ht|Ht];
    [|left; by apply serve_touches_only_target_aux].
  rewrite serve_db. unfold target in Ht.
  destruct (req_route req) as [|i| |i| |i|i]; simplify_eq;
    destruct (req_method req); try (by left).
  - destruct (create_template_db POST (req_form req) now id db)
      as [->|(f & _ & _ & ->)]; [by left|].
    right; left. split_and!; try done. exists f. apply lookup_insert_eq.
  - destruct (edit_template_db GET id (req_form req) now db)
      as [->|(t & f & ? & _)]; [by left|done].
  - destruct (edit_template_db POST id (req_form req) now db)
      as [->|(t & f & _ & Ht & _ & ->)]; [by left|].
    right; right; left. split; [done|]. exists t, f. split; [done|].
    apply lookup_insert_eq.
  - destruct (render_template_api_db id (req_json req) now db)
      as [[-> _]|(t & rendered & used & Ht & ->)]; [by left|].
    right; right; right; left. split; [done|]. exists t. split; [done|].
    apply lookup_insert_eq.
  - rewrite delete_template_db. right; right; right; right.
    split; [done|]. apply lookup_delete_eq.
Qed.

(** X5. Only a create request adds an id to the datastore, and only under
    the newly allocated id; only a delete request removes one, and only the
    id in its route. *)
Theorem serve_adds_and_removes now new_id req db id :
  let db' := (serve jinja nonmapping_exn now new_id req db).1 in
  (is_Some (db' !! id) ->
   is_Some (db !! id) \/ (req_route req = CreateTemplate /\ id = new_id)) /\
  (is_Some (db !! id) ->
   is_Some (db' !! id) \/ req_route req = DeleteTemplate id).
Proof.
  cbn zeta.
  destruct (serve_entity now new_id req db id)
    as [->|[(Hr & -> & f & ->)|[(Hr & t & f & -> & ->)|
        [(Hr & t & -> & ->)|(Hr & ->)]]]]; split; intros H; eauto.
  by destruct H.
Qed.

Lemma create_template_refused method form now new_id db :
  (400 <= status_of (create_template method form now new_id db).2)%Z ->
  (create_template method form now new_id db).1 = db.
Proof.
  unfold create_template. destruct method; [done|].
  by destruct (read_form form).
Qed.

Lemma edit_template_refused method template_id form now db :
  (400 <= status_of (edit_template method template_id form now db).2)%Z ->
  (edit_template method template_id form now db).1 = db.
Proof.
  unfold edit_template. destruct (get_by_id template_id db); [|done].
  destruct method; [done|]. by destruct (read_form form).
Qed.

Lemma render_template_api_refused template_id request_json now db :
  (400 <= status_of (render_api template_id request_json now db).2)%Z ->
  (render_api template_id request_json now db).1 = db.
Proof.
  destruct (render_template_api_db template_id request_json now db)
    as [[-> _]|(t & rendered & used & _ & ->)]; [done|]. simpl. lia.
Qed.

(** X6. A request that is answered with an error status (400, 404 or 405)
    has changed nothing. *)
Theorem refused_requests_change_nothing now new_id req db :
  (400 <= reply_status (serve jinja nonmapping_exn now new_id req db).2)%Z ->
  (serve jinja nonmapping_exn now new_id req db).1 = db.
Proof.
  rewrite serve_db, serve_reply.
  destruct (req_route req) as [|i| |i| |i|i];
    destruct (req_method req); try done; cbn [reply_status];
    first [ apply create_template_refused
          | apply edit_template_refused
          | apply render_template_api_refused
          | unfold delete_template; by destruct (get_by_id i db) ].
Qed.

Lemma prepare_for_put_well_kept now t :
  variables t = findall (template t) -> (0 <= usage_count t)%Z ->
  well_kept (prepare_for_put now t).
Proof.
  intros Hv Hu. unfold well_kept. simpl. split_and!; try done.
  by destruct (created_date t).
Qed.

Lemma serve_well_kept now new_id req db :
  (forall id t, db !! id = Some t -> well_kept t) ->
  forall id t, (serve' now new_id req db).1 !! id = Some t -> well_kept t.
Proof.
  intros Hdb id t'.
  destruct (serve_entity now new_id req db id)
    as [->|[(Hr & -> & f & ->)|[(Hr & t & f & Ht & ->)|
        [(Hr & t & Ht & ->)|(Hr & ->)]]]]; [apply Hdb| | | |done]; intros [= <-].
  - by apply prepare_for_put_well_kept.
  - apply prepare_for_put_well_kept; [done|]. simpl. by apply (Hdb _ _ Ht).
  - destruct (Hdb _ _ Ht) as (Hv & _ & _ & Hu).
    apply prepare_for_put_well_kept; simpl; [done|lia].
Qed.

(** X7. Whatever requests are served, starting from a datastore whose
    entities have it, every stored entity has as [variables] the
    placeholders of its current body, has both dates set and a usage count
    that is not negative. *)
Theorem run_keeps_entities_well_kept events db :
  (forall id t, db !! id = Some t -> well_kept t) ->
  forall id t, (run jinja nonmapping_exn events db).1 !! id = Some t -> well_kept t.
Proof.
  revert db. induction events as [|e es IH]; intros db Hdb; [done|].
  cbn [run].
  destruct (serve' (ev_now e) (ev_new_id e) (ev_request e) db) as [db1 r] eqn:Hs.
  destruct (run' es db1) as [db2 rs] eqn:Hr. cbn [fst].
  replace db2 with (run' es db1).1 by (by rewrite Hr).
  apply IH. replace db1 with (serve' (ev_now e) (ev_new_id e) (ev_request e) db).1
    by (by rewrite Hs).
  by apply serve_well_kept.
Qed.

Lemma serve_dated_upto bound now new_id req db :
  (bound <= now)%Z ->
  (forall id t, db !! id = Some t -> dated_upto bound t) ->
  forall id t, (serve' now new_id req db).1 !! id = Some t -> dated_upto now t.
Proof.
  intros Hnow Hdb id t'.
  assert (Hold : forall t, dated_upto bound t -> dated_upto now t).
  { intros t (c & m & Hc & Hm & Hle). exists c, m. split_and!; try done; lia. }
  destruct (serve_entity now new_id req db id)
    as [->|[(Hr & -> & f & ->)|[(Hr & t & f & Ht & ->)|
        [(Hr & t & Ht & ->)|(Hr & ->)]]]]; [| | | |done].
  - intros Ht. by apply Hold, (Hdb id).
  - intros [= <-]. exists now, now. simpl. split_and!; try done; lia.
  - intros [= <-]. destruct (Hdb _ _ Ht) as (c & m & Hc & Hm & Hle).
    exists c, now. simpl. rewrite Hc. split_and!; try done; lia.
  - intros [= <-]. destruct (Hdb _ _ Ht) as (c & m & Hc & Hm & Hle).
    exists c, now. simpl. rewrite Hc. split_and!; try done; lia.
Qed.

(** X8. When the requests arrive at times that do not go back, no stored
    entity ever has a creation date after its modification date. *)
Theorem run_keeps_dates_ordered events bound db :
  Sorted Z.le (bound :: (ev_now <$> events)) ->
  (forall id t, db !! id = Some t -> dated_upto bound t) ->
  forall id t,
    (run jinja nonmapping_exn events db).1 !! id = Some t ->
    exists c m, created_date t = Some c /\ modified_date t = Some m /\ (c <= m)%Z.
Proof.
  intros Hsorted Hdb id t Ht.
  cut (exists b, dated_upto b t).
  { intros (b & c & m & Hc & Hm & Hle). exists c, m. split_and!; try done; lia. }
  revert bound db Hsorted Hdb Ht.
  induction events as [|e es IH]; intros bound db Hsorted Hdb Ht.
  { exists bound. by apply (Hdb id). }
  cbn [run] in Ht.
  destruct (serve' (ev_now e) (ev_new_id e) (ev_request e) db) as [db1 r] eqn:Hs.
  destruct (run' es db1) as [db2 rs] eqn:Hr. cbn [fst] in Ht.
  apply Sorted_inv in Hsorted as [Hsorted Hhd].
  apply HdRel_inv in Hhd. cbn [fmap list_fmap] in Hsorted.
  apply (IH (ev_now e) db1); [done| |by rewrite Hr].
  replace db1 with (serve' (ev_now e) (ev_new_id e) (ev_request e) db).1
    by (by rewrite Hs).
  by apply (serve_dated_upto bound).
Qed.

(** X9. One request leaves the usage count of an entity as it is or raises
    it by one, and never changes its creation date, as long as the
    datastore allocates an unused id. *)
Theorem serve_keeps_count_and_creation now new_id req db id t t' :
  db !! new_id = None ->
  db !! id = Some t ->
  (serve jinja nonmapping_exn now new_id req db).1 !! id = Some t' ->
  (usage_count t <= usage_count t' <= usage_count t + 1)%Z /\
  (is_Some (created_date t) -> created_date t' = created_date t).
Proof.
  intros Hfresh Ht.
  destruct (serve_entity now new_id req db id)
    as [->|[(Hr & -> & f & ->)|[(Hr & t0 & f & Ht0 & ->)|
        [(Hr & t0 & Ht0 & ->)|(Hr & ->)]]]]; [| | | |done].
  - rewrite Ht. intros [= <-]. split; [lia|done].
  - congruence.
  - intros [= <-]. simplify_eq. simpl. split; [lia|]. by intros [c ->].
  - intros [= <-]. simplify_eq. simpl. split; [lia|]. by intros [c ->].
Qed.

Lemma serve_counts e db id t :
  db !! id = Some t ->
  req_route (ev_request e) <> DeleteTemplate id ->
  (req_route (ev_request e) = CreateTemplate -> ev_new_id e <> id) ->
  exists t1,
    (serve' (ev_now e) (ev_new_id e) (ev_request e) db).1 !! id = Some t1 /\
    usage_count t1
    = (usage_count t
       + if rendered_ok id e (serve' (ev_now e) (ev_new_id e) (ev_request e) db).2
         then 1 else 0)%Z.
Proof.
  intros Ht Hdel Hnew. rewrite serve_db, serve_reply. unfold rendered_ok.
  destruct (req_route (ev_request e)) as [|i| |i| |i|i];
    destruct (req_method (ev_request e));
    try (exists t; split; [done|lia]).
  - destruct (create_template_db POST (req_form (ev_request e)) (ev_now e)
                (ev_new_id e) db) as [->|(f & _ & _ & ->)].
    + exists t. split; [done|lia].
    + exists t. rewrite lookup_insert_ne by auto. split; [done|lia].
  - destruct (edit_template_db GET i (req_form (ev_request e)) (ev_now e) db)
      as [->|(t0 & f & ? & _)]; [|done]. exists t. split; [done|lia].
  - destruct (edit_template_db POST i (req_form (ev_request e)) (ev_now e) db)
      as [->|(t0 & f & _ & Ht0 & _ & ->)].
    + exists t. split; [done|lia].
    + destruct (decide (i = id)) as [->|Hne].
      * simplify_eq. eexists. rewrite lookup_insert_eq. split; [done|]. simpl. lia.
      * exists t. rewrite lookup_insert_ne by done. split; [done|lia].
  - destruct (render_template_api_db i (req_json (ev_request e)) (ev_now e) db)
      as [[-> Hno]|(t0 & rendered & used & Ht0 & ->)].
    + exists t. split; [done|]. cbn [snd].
      destruct (render_api i (req_json (ev_request e)) (ev_now e) db).2
        as [| | |[| |] ?|] eqn:Hr; try lia.
      by destruct (Hno rendered template_name variables_used status).
    + cbn [fst snd]. destruct (Pos.eqb_spec i id) as [->|Hne].
      * simplify_eq. eexists. rewrite lookup_insert_eq. split; [done|]. simpl. lia.
      * exists t. rewrite lookup_insert_ne by done. split; [done|lia].
  - rewrite delete_template_db. exists t.
    rewrite lookup_delete_ne by congruence. split; [done|lia].
Qed.

(** X10. The usage count of a template is its count at the start plus the
    number of successful answers of the render API for it, over any
    requests that neither delete it nor create an entity under its id. *)
Theorem usage_count_counts_renders events db id t :
  db !! id = Some t ->
  Forall (fun e => req_route (ev_request e) <> DeleteTemplate id /\
                   (req_route (ev_request e) = CreateTemplate -> ev_new_id e <> id))
         events ->
  exists t',
    (run jinja nonmapping_exn events db).1 !! id = Some t' /\
    usage_count t'
    = (usage_count t + count_rendered id events (run jinja nonmapping_exn events db).2)%Z.
Proof.
  intros Ht Hev. revert db t Ht.
  induction Hev as [|e es [Hdel Hnew] _ IH]; intros db t Ht.
  { exists t. split; [done|]. simpl. lia. }
  destruct (serve_counts e db id t Ht Hdel Hnew) as (t1 & Ht1 & Hu1).
  cbn [run].
  destruct (serve' (ev_now e) (ev_new_id e) (ev_request e) db) as [db1 r] eqn:Hs.
  cbn [fst snd] in Ht1, Hu1.
  destruct (IH db1 t1 Ht1) as (t' & Ht' & Hu').
  destruct (run' es db1) as [db2 rs] eqn:Hr. cbn [fst snd] in *.
  exists t'. split; [done|]. cbn [count_rendered]. lia.
Qed.


End Served.

Section Composition.

Implicit Types (db : datastore) (t : PromptTemplate).

Lemma prepare_for_put_edited now1 now2 t f1 f2 :
  is_Some (created_date t) ->
  prepare_for_put now2 (edited_entity (prepare_for_put now1 (edited_entity t f1)) f2)
  = prepare_for_put now2 (edited_entity t f2).
Proof. intros [c Hc]. unfold prepare_for_put, edited_entity. simpl. by rewrite Hc. Qed.

(** X14. Deleting the id a create request was given restores the
    datastore, when that id was unused. *)
Theorem create_then_delete_restores method form now new_id db :
  db !! new_id = None ->
  (delete_template new_id (create_template method form now new_id db).1).1 = db.
Proof.
  intros Hfresh. unfold create_template.
  assert (Hsame : (delete_template new_id db).1 = db).
  { unfold delete_template, get_by_id. by rewrite Hfresh. }
  destruct method; [done|]. destruct (read_form form) as [f|]; [|done].
  cbn [fst]. unfold delete_template, get_by_id, put, key_delete.
  rewrite lookup_insert_eq. cbn [fst]. by apply delete_insert_id.
Qed.

Lemma py_in_refl a : py_in a a = true.
Proof.
  apply py_in_spec. exists "", "". by rewrite append_nil, append_empty_r.
Qed.

Lemma search_templates_finds args db id t :
  db !! id = Some t ->
  args_get args "category" "" = "" \/ category t = args_get args "category" "" ->
  search_keeps (py_lower (args_get args "q" "")) (args_get args "tag" "") t = true ->
  exists result,
    search_templates args db = Json (SearchResult result) 200 /\
    summarize (id, t) ∈ result.
Proof.
  intros Hdb Hcat Hkeep. unfold search_templates. eexists. split; [reflexivity|].
  apply list_elem_of_fmap. exists (id, t). split; [done|].
  apply list_elem_of_In, filter_In. split; [|done]. apply list_elem_of_In.
  destruct (String.eqb_spec (args_get args "category" "") "") as [He|He]; simpl.
  - by apply fetch_spec.
  - apply fetch_spec. split; [done|]. apply String.eqb_eq.
    by destruct Hcat.
Qed.



End Composition.

Section TagsRoundTrip.

Lemma py_split_no_comma sep p :
  string_forallb (fun c => negb (Ascii.eqb c sep)) p = true ->
  py_split sep p = [p].
Proof.
  induction p as [|c p IH]; [done|]. simpl.
  intros [Hc Hp]%andb_prop. apply negb_true_iff in Hc. rewrite Hc.
  by rewrite (IH Hp).
Qed.

Lemma py_split_app sep p rest :
  string_forallb (fun c => negb (Ascii.eqb c sep)) p = true ->
  py_split sep (p +:+ String sep rest) = p :: py_split sep rest.
Proof.
  induction p as [|c p IH].
  - intros _. rewrite append_nil. simpl. by rewrite Ascii.eqb_refl.
  - cbn [string_forallb]. intros [Hc Hp]%andb_prop. apply negb_true_iff in Hc.
    rewrite append_cons. cbn [py_split]. by rewrite Hc, (IH Hp).
Qed.

Lemma py_split_join tags :
  tags <> [] -> Forall (fun tag => no_comma tag = true) tags ->
  py_split "," (py_join "," tags) = tags.
Proof.
  intros Hne Hall. induction Hall as [|p ps Hp Hps IH]; [done|].
  destruct ps as [|q ps].
  - simpl. by apply py_split_no_comma.
  - rewrite py_join_cons.
    change ("," +:+ py_join "," (q :: ps))
      with (String ","%char (py_join "," (q :: ps))).
    rewrite py_split_app by done. by rewrite IH.
Qed.

(** X17. Joining tags with commas and submitting the text gives the same
    tags back, for tags without a comma, unless there is no tag or the
    only tag is empty. *)
Theorem parse_tags_of_joined_tags tags :
  tags <> [] -> tags <> [""] ->
  Forall (fun tag => no_comma tag = true) tags ->
  parse_tags (py_join "," tags) = tags.
Proof.
  intros Hne Hone Hall. unfold parse_tags.
  destruct (py_join "," tags) as [|c s] eqn:Hj.
  - destruct tags as [|p [|q ps]]; [done| |].
    + simpl in Hj. by subst.
    + rewrite py_join_cons in Hj. by destruct p.
  - rewrite <- Hj. by apply py_split_join.
Qed.

Lemma parse_tags_of_joined_tags_witness :
  parse_tags (py_join "," ["onboarding"; " mail"; ""]) = ["onboarding"; " mail"; ""].
Proof.
  apply parse_tags_of_joined_tags; [done|done|].
  repeat constructor.
Defined.

Lemma py_split_length s :
  List.length (py_split "," s) = S (count_commas s).
Proof.
  induction s as [|c s IH]; [done|]. simpl.
  destruct (Ascii.eqb c ","); simpl; [by rewrite IH|].
  destruct (py_split "," s); simpl in *; lia.
Qed.

(** X18. A tags field that is not empty yields one tag more than it has
    commas. *)
Theorem parse_tags_length c s :
  List.length (parse_tags (String c s)) = S (count_commas (String c s)).
Proof. unfold parse_tags. apply py_split_length. Qed.

End TagsRoundTrip.

Section ServedExamples.

Abbreviation serve_instance := (serve jinja_instance type_error).
Abbreviation run_instance := (run jinja_instance type_error).

Lemma serve_touches_only_target_witness :
  (serve_instance 200 3 (post_request (DeleteTemplate 1) ∅ None) two_templates).1
    !! 2%positive
  = Some error_alert.
Proof.
  rewrite (serve_touches_only_target jinja_instance type_error 200 3
             (post_request (DeleteTemplate 1) ∅ None) two_templates 2);
    by vm_compute.
Defined.

Lemma refused_requests_change_nothing_witness :
  (serve_instance 200 2 (post_request (EditTemplate 7) farewell_form None)
     greeting_db).1
  = greeting_db.
Proof.
  apply (refused_requests_change_nothing jinja_instance type_error). by vm_compute.
Defined.

Lemma run_keeps_entities_well_kept_witness :
  exists t, (run_instance sample_events ∅).1 !! 1%positive = Some t /\ well_kept t.
Proof.
  destruct ((run_instance sample_events ∅).1 !! 1%positive) as [t|] eqn:Ht;
    [|by vm_compute in Ht].
  exists t. split; [done|].
  apply (run_keeps_entities_well_kept jinja_instance type_error sample_events ∅)
    with (id := 1%positive); [|exact Ht].
  intros id t0 H. by rewrite lookup_empty in H.
Defined.

Lemma run_keeps_dates_ordered_witness :
  exists t c m,
    (run_instance sample_events ∅).1 !! 2%positive = Some t /\
    created_date t = Some c /\ modified_date t = Some m /\ (c <= m)%Z.
Proof.
  destruct ((run_instance sample_events ∅).1 !! 2%positive) as [t|] eqn:Ht;
    [|by vm_compute in Ht].
  destruct (run_keeps_dates_ordered jinja_instance type_error sample_events 0 ∅)
    with (id := 2%positive) (t := t) as (c & m & Hc & Hm & Hle).
  - by apply (bool_decide_unpack _).
  - intros id t0 H. by rewrite lookup_empty in H.
  - exact Ht.
  - by exists t, c, m.
Defined.

Lemma serve_keeps_count_and_creation_witness :
  exists t',
    (serve_instance 110 2 (post_request (RenderTemplateApi 1) ∅ ada) greeting_db).1
      !! 1%positive = Some t' /\
    (0 <= usage_count t' <= 1)%Z /\ created_date t' = Some 100%Z.
Proof.
  destruct ((serve_instance 110 2 (post_request (RenderTemplateApi 1) ∅ ada)
               greeting_db).1 !! 1%positive) as [t'|] eqn:Ht';
    [|by vm_compute in Ht'].
  destruct (serve_keeps_count_and_creation jinja_instance type_error 110 2
              (post_request (RenderTemplateApi 1) ∅ ada) greeting_db 1 greeting t')
    as [Hu Hc]; [by vm_compute|by vm_compute|exact Ht'|].
  exists t'. split; [done|]. split; [exact Hu|]. apply Hc. by eexists.
Defined.

Lemma usage_count_counts_renders_witness :
  exists t',
    (run_instance later_events greeting_db).1 !! 1%positive = Some t' /\
    usage_count t' = 2%Z.
Proof.
  destruct (usage_count_counts_renders jinja_instance type_error later_events
              greeting_db 1 greeting) as (t' & Ht' & Hu).
  - by vm_compute.
  - repeat (constructor; [by split|]). constructor.
  - exists t'. split; [exact Ht'|]. rewrite Hu. by vm_compute.
Defined.

Lemma create_then_delete_restores_witness :
  (delete_template 2 (create_template POST farewell_form 120 2 greeting_db).1).1
  = greeting_db.
Proof. apply create_then_delete_restores. by vm_compute. Defined.


End ServedExamples.

Section Refusals.

Implicit Types (db : datastore) (t : PromptTemplate).

Lemma storable_iff f :
  storable f = true <->
  indexed_ok (f_name f) = true /\ indexed_ok (f_category f) = true /\
  forallb indexed_ok (parse_tags (f_tags f)) = true.
Proof. unfold storable. rewrite !andb_true_iff. tauto. Qed.

Lemma storable_false f :
  storable f = false ->
  indexed_ok (f_name f) = false \/
  indexed_ok (f_category f) = false \/
  forallb indexed_ok (parse_tags (f_tags f)) = false.
Proof.
  unfold storable.
  destruct (indexed_ok (f_name f)), (indexed_ok (f_category f)); simpl; auto.
Qed.

Lemma app_get_by_id template_id db :
  key_id_ok template_id = true ->
  App.get_by_id template_id db = Some (get_by_id template_id db).
Proof. unfold App.get_by_id. by intros ->. Qed.

Lemma app_get_by_id_refused template_id db :
  key_id_ok template_id = false -> App.get_by_id template_id db = None.
Proof. unfold App.get_by_id. by intros ->. Qed.

(** On the requests the libraries accept, the handlers of [App] answer
    as the handlers without the refusals do. *)
Lemma app_view_template template_id db :
  key_id_ok template_id = true ->
  App.view_template template_id db = Answered (view_template template_id db).
Proof.
  intros Hok. unfold App.view_template, view_template.
  rewrite (app_get_by_id _ _ Hok). by destruct (get_by_id template_id db).
Qed.

Lemma app_delete_template template_id db :
  key_id_ok template_id = true ->
  App.delete_template template_id db
  = ((delete_template template_id db).1,
     Answered (delete_template template_id db).2).
Proof.
  intros Hok. unfold App.delete_template, delete_template.
  rewrite (app_get_by_id _ _ Hok). by destruct (get_by_id template_id db).
Qed.

Lemma form_accepted_storable form f :
  form_accepted form = true -> read_form form = Some f -> storable f = true.
Proof.
  unfold form_accepted. intros Hacc (_ & Hn & _ & Hc & Htg)%read_form_Some.
  rewrite Hn, Hc, Htg in Hacc. done.
Qed.

Lemma app_create_template method form now new_id db :
  form_accepted form = true ->
  App.create_template method form now new_id db
  = ((create_template method form now new_id db).1,
     Answered (create_template method form now new_id db).2).
Proof.
  intros Hacc. unfold App.create_template, create_template.
  destruct method; [done|].
  destruct (read_form form) as [f|] eqn:Hf; [|done].
  pose proof (form_accepted_storable _ _ Hacc Hf) as Hs.
  unfold storable in Hs. by rewrite Hs.
Qed.

Lemma app_edit_template_complete template_id form f now db t :
  key_id_ok template_id = true ->
  db !! template_id = Some t ->
  read_form form = Some f ->
  App.edit_template POST template_id form now db
  = if storable f
    then (put now template_id (edited_entity t f) db,
          Answered (Redirect "view_template" (Some template_id)))
    else (db, InternalServerError).
Proof.
  intros Hok Ht (Hb & Hn & Hd & Hc & Htg)%read_form_Some.
  unfold App.edit_template. rewrite (app_get_by_id _ _ Hok).
  unfold get_by_id. rewrite Ht, Hb, Hn, Hd, Hc, Htg. unfold storable.
  destruct (indexed_ok (f_name f)); [|done].
  destruct (indexed_ok (f_category f)); [|done].
  by destruct (forallb indexed_ok (parse_tags (f_tags f))).
Qed.

Lemma app_edit_template method template_id form now db :
  key_id_ok template_id = true ->
  form_accepted form = true ->
  App.edit_template method template_id form now db
  = ((edit_template method template_id form now db).1,
     Answered (edit_template method template_id form now db).2).
Proof.
  intros Hok Hacc. unfold App.edit_template, edit_template.
  rewrite (app_get_by_id _ _ Hok).
  destruct (get_by_id template_id db) as [t|]; [|done].
  destruct method; [done|]. unfold read_form, form_accepted in *.
  destruct (form !! "template") as [b|]; [|done].
  destruct (form !! "name") as [n|]; [|done].
  destruct (form !! "description") as [d|], (form !! "category") as [c|],
    (form !! "tags") as [tg|]; simpl in Hacc |- *;
    repeat match goal with
           | H : _ && _ = true |- _ => apply andb_prop in H as [? ?]
           end;
    repeat match goal with
           | H : ?x = true |- context [?x] => rewrite H
           end; done.
Qed.

(** C5, as the code has it.  For an id below 2^63, deleting removes the
    entity; deleting an id that is absent answers with the same redirect
    and changes nothing; after one or two deletions the detail page of
    the id answers 404; other entities are untouched.  For an id of 2^63
    or more the delete request and the detail page are answered with 500
    and nothing changes. *)
Theorem delete_template_idempotent template_id db :
  (key_id_ok template_id = true ->
   let once := App.delete_template template_id db in
   let twice := App.delete_template template_id once.1 in
   once.2 = Answered (Redirect "index" None) /\
   once.1 = delete template_id db /\
   (db !! template_id = None -> once = (db, Answered (Redirect "index" None))) /\
   twice = (once.1, Answered (Redirect "index" None)) /\
   App.get_by_id template_id once.1 = Some None /\
   App.view_template template_id once.1
   = Answered (PlainText "Template not found" 404) /\
   App.view_template template_id twice.1
   = Answered (PlainText "Template not found" 404) /\
   (forall other, other <> template_id -> once.1 !! other = db !! other)) /\
  (key_id_ok template_id = false ->
   App.delete_template template_id db = (db, InternalServerError) /\
   App.view_template template_id db = InternalServerError).
Proof.
  split; intros Hok.
  - assert (Hdel : (App.delete_template template_id db).1 = delete template_id db).
    { unfold App.delete_template, key_delete. rewrite (app_get_by_id _ _ Hok).
      unfold get_by_id. destruct (db !! template_id) eqn:H; [done|]. simpl.
      symmetry. by apply delete_id. }
    assert (Hgone : forall db', db' !! template_id = None ->
              App.delete_template template_id db'
              = (db', Answered (Redirect "index" None))).
    { intros db' H. unfold App.delete_template.
      rewrite (app_get_by_id _ _ Hok). unfold get_by_id. by rewrite H. }
    cbn zeta. rewrite Hdel.
    assert (Hnone : delete template_id db !! template_id = None)
      by apply lookup_delete_eq.
    split_and!; try done.
    + unfold App.delete_template. rewrite (app_get_by_id _ _ Hok).
      unfold get_by_id. by destruct (db !! template_id).
    + apply Hgone.
    + by apply Hgone.
    + rewrite (app_get_by_id _ _ Hok). unfold get_by_id. by rewrite Hnone.
    + unfold App.view_template. rewrite (app_get_by_id _ _ Hok).
      unfold get_by_id. by rewrite Hnone.
    + rewrite (Hgone _ Hnone). unfold App.view_template. simpl.
      rewrite (app_get_by_id _ _ Hok). unfold get_by_id. by rewrite Hnone.
    + intros other Hne. by apply lookup_delete_ne.
  - unfold App.delete_template, App.view_template.
    by rewrite (app_get_by_id_refused _ _ Hok).
Qed.

Lemma delete_template_idempotent_witness :
  App.delete_template 2 greeting_db
  = (greeting_db, Answered (Redirect "index" None)) /\
  App.view_template 1 (App.delete_template 1 greeting_db).1
  = Answered (PlainText "Template not found" 404).
Proof.
  destruct (delete_template_idempotent 2 greeting_db) as [H2 _].
  destruct (delete_template_idempotent 1 greeting_db) as [H1 _].
  destruct (H2 eq_refl) as (_ & _ & H & _).
  destruct (H1 eq_refl) as (_ & _ & _ & _ & _ & H' & _).
  split; [apply H; by vm_compute|exact H'].
Defined.

(** C5 as claimed fails: for the id 2^63 the delete request does not
    succeed silently and the detail page does not answer 404; both are
    answered with 500. *)
Lemma delete_template_refuses_large_id :
  App.delete_template first_bad_id greeting_db
  = (greeting_db, InternalServerError) /\
  App.view_template first_bad_id (App.delete_template first_bad_id greeting_db).1
  = InternalServerError /\
  answer_status InternalServerError = 500%Z.
Proof. by vm_compute. Qed.

(** C4, as the code has it.  Editing an absent id below 2^63 answers 404
    and an id of 2^63 or more answers 500; neither changes anything.
    Editing a stored entity with a complete form whose name, category
    and tags are at most 1500 bytes each overwrites name, description,
    body, category and tags, recomputes the variables from the new body
    and sets the modification date to the time of the request; the
    creation date and the usage count stay.  With a longer name,
    category or tag the request is answered with 500 and nothing
    changes. *)
Theorem edit_template_overwrites template_id form now db :
  (key_id_ok template_id = true -> db !! template_id = None ->
   forall method,
     App.edit_template method template_id form now db
     = (db, Answered (PlainText "Template not found" 404))) /\
  (key_id_ok template_id = false ->
   forall method,
     App.edit_template method template_id form now db
     = (db, InternalServerError)) /\
  (forall t f,
      key_id_ok template_id = true ->
      db !! template_id = Some t -> read_form form = Some f ->
      (storable f = true ->
       exists t',
         App.edit_template POST template_id form now db
         = (<[template_id := t']> db,
            Answered (Redirect "view_template" (Some template_id))) /\
         name t' = f_name f /\ description t' = f_description f /\
         template t' = f_template f /\ category t' = f_category f /\
         tags t' = parse_tags (f_tags f) /\
         variables t' = findall (f_template f) /\
         modified_date t' = Some now /\
         (is_Some (created_date t) -> created_date t' = created_date t) /\
         usage_count t' = usage_count t) /\
      (storable f = false ->
       App.edit_template POST template_id form now db
       = (db, InternalServerError))).
Proof.
  split_and!.
  - intros Hok Hnone method. unfold App.edit_template.
    rewrite (app_get_by_id _ _ Hok). unfold get_by_id. by rewrite Hnone.
  - intros Hok method. unfold App.edit_template.
    by rewrite (app_get_by_id_refused _ _ Hok).
  - intros t f Hok Ht Hf.
    rewrite (app_edit_template_complete _ _ _ now _ _ Hok Ht Hf).
    split; intros ->; [|done].
    eexists. split; [reflexivity|]. simpl.
    split_and!; try done. by intros [d ->].
Qed.

Lemma edit_template_overwrites_witness :
  exists t',
    App.edit_template POST 1 farewell_form 200 greeting_db
    = (<[1%positive := t']> greeting_db,
       Answered (Redirect "view_template" (Some 1%positive))) /\
    name t' = "Farewell" /\ description t' = "said at the end" /\
    template t' = "Bye {{user}}, see you {{day}}" /\ category t' = "Mail" /\
    tags t' = ["a"; " b"] /\ variables t' = ["user"; "day"] /\
    created_date t' = Some 100%Z /\ modified_date t' = Some 200%Z /\
    usage_count t' = 0%Z.
Proof.
  destruct (edit_template_overwrites 1 farewell_form 200 greeting_db)
    as (_ & _ & H).
  destruct (H greeting
              (mkFields "Bye {{user}}, see you {{day}}" "Farewell"
                        "said at the end" "Mail" "a, b"))
    as [Hstored _]; [reflexivity|by vm_compute|by vm_compute|].
  destruct Hstored as (t' & Ht & Hn & Hd & Hb & Hcat & Htg & Hv & Hm & Hc & Hu);
    [by vm_compute|].
  exists t'. split; [exact Ht|].
  rewrite Hn, Hd, Hb, Hcat, Htg, Hv, Hm, Hu, Hc by (by eexists). by vm_compute.
Defined.

(** C4 as claimed fails: an update of a stored template with a name of
    1501 bytes overwrites nothing and is answered with 500, and an
    update on the absent id 2^63 is answered with 500, not 404. *)
Lemma edit_template_refuses_long_name :
  greeting_db !! 1%positive = Some greeting /\
  String.length long_name = 1501%nat /\
  long_name_form = make_form long_name "said at the end"
                     "Bye {{user}}, see you {{day}}" "Mail" "a, b" /\
  App.edit_template POST 1 long_name_form 200 greeting_db
  = (greeting_db, InternalServerError) /\
  greeting_db !! first_bad_id = None /\
  App.edit_template POST first_bad_id farewell_form 200 greeting_db
  = (greeting_db, InternalServerError).
Proof. by vm_compute. Qed.

(** C7, as the code has it.  A create request that lacks one of the five
    form fields is refused with HTTP 400 and nothing is written.  A
    request that has them all, with a name, a category and tags of at
    most 1500 bytes each, is written under the new id, an empty name or
    body included, with the variables of the body, both dates at the
    time of the request and a usage count of 0.  With a longer name,
    category or tag it is answered with 500 and nothing is written. *)
Theorem create_template_requires_fields form now new_id db :
  (read_form form = None <->
   exists k, k ∈ ["template"; "name"; "description"; "category"; "tags"] /\
             form !! k = None) /\
  (read_form form = None ->
   App.create_template POST form now new_id db
   = (db, Answered BadRequestKeyError)) /\
  (forall f,
      read_form form = Some f ->
      (storable f = true ->
       exists t,
         App.create_template POST form now new_id db
         = (<[new_id := t]> db, Answered (Redirect "index" None)) /\
         name t = f_name f /\ description t = f_description f /\
         template t = f_template f /\ category t = f_category f /\
         tags t = parse_tags (f_tags f) /\
         variables t = findall (f_template f) /\
         created_date t = Some now /\ modified_date t = Some now /\
         usage_count t = 0%Z) /\
      (storable f = false ->
       App.create_template POST form now new_id db
       = (db, InternalServerError))).
Proof.
  split_and!.
  - apply read_form_None.
  - unfold App.create_template. by intros ->.
  - intros f Hf. unfold App.create_template. rewrite Hf.
    fold (storable f). split; intros ->; [|done].
    eexists. split; [reflexivity|]. done.
Qed.

Lemma create_template_requires_fields_witness :
  App.create_template POST (delete "name" greeting_form) 100 1 ∅
  = (∅, Answered BadRequestKeyError) /\
  (exists t,
    App.create_template POST farewell_form 100 2 greeting_db
    = (<[2%positive := t]> greeting_db, Answered (Redirect "index" None)) /\
    name t = "Farewell" /\ variables t = ["user"; "day"] /\
    tags t = ["a"; " b"]) /\
  App.create_template POST long_name_form 100 2 greeting_db
  = (greeting_db, InternalServerError).
Proof.
  split_and!.
  - apply (create_template_requires_fields (delete "name" greeting_form) 100 1 ∅).
    by vm_compute.
  - destruct (create_template_requires_fields farewell_form 100 2 greeting_db)
      as (_ & _ & H).
    destruct (H (mkFields "Bye {{user}}, see you {{day}}" "Farewell"
                          "said at the end" "Mail" "a, b")) as [Hstored _];
      [by vm_compute|].
    destruct Hstored as (t & Ht & Hrest); [by vm_compute|].
    exists t. split; [exact Ht|].
    destruct Hrest as (-> & _ & _ & _ & -> & -> & _). by vm_compute.
  - destruct (create_template_requires_fields long_name_form 100 2 greeting_db)
      as (_ & _ & H).
    destruct (H (mkFields "Bye {{user}}, see you {{day}}" long_name
                          "said at the end" "Mail" "a, b")) as [_ Hrefused];
      [by vm_compute|].
    apply Hrefused. by vm_compute.
Defined.

(** C7 as claimed fails: a create request whose name and body are empty
    is not refused, the entity is written. *)
Lemma create_template_accepts_empty_name_and_body :
  App.create_template POST blank_form 100 1 ∅
  = ({[ 1%positive :=
          {| name := ""; description := ""; template := ""; category := "";
             tags := []; variables := [];
             created_date := Some 100%Z; modified_date := Some 100%Z;
             usage_count := 0 |} ]},
     Answered (Redirect "index" None)).
Proof. by vm_compute. Qed.

(** X13. Of two edits of one template the later one wins, when its form
    is complete and its name, category and tags are at most 1500 bytes
    each: the datastore and the answer are the same as if only the later
    form had been submitted. *)
Theorem edit_template_last_write_wins template_id form1 now1 form2 now2 db t f2 :
  key_id_ok template_id = true ->
  db !! template_id = Some t ->
  is_Some (created_date t) ->
  read_form form2 = Some f2 ->
  storable f2 = true ->
  App.edit_template POST template_id form2 now2
    (App.edit_template POST template_id form1 now1 db).1
  = App.edit_template POST template_id form2 now2 db.
Proof.
  intros Hok Ht Hc Hf2 Hs2.
  rewrite (app_edit_template_complete _ _ _ now2 db _ Hok Ht Hf2), Hs2.
  assert (Hfirst :
            (App.edit_template POST template_id form1 now1 db).1 = db \/
            exists f1, (App.edit_template POST template_id form1 now1 db).1
                       = put now1 template_id (edited_entity t f1) db).
  { unfold App.edit_template. rewrite (app_get_by_id _ _ Hok).
    unfold get_by_id. rewrite Ht.
    destruct (form1 !! "template") as [b|]; [|by left].
    destruct (form1 !! "name") as [n|]; [|by left].
    destruct (indexed_ok n); [|by left]. simpl.
    destruct (form1 !! "description") as [d|]; [|by left].
    destruct (form1 !! "category") as [c|]; [|by left].
    destruct (indexed_ok c); [|by left]. simpl.
    destruct (form1 !! "tags") as [tg|]; [|by left].
    destruct (forallb indexed_ok (parse_tags tg)); [|by left]. simpl.
    right. by exists (mkFields b n d c tg). }
  destruct Hfirst as [->|[f1 ->]].
  - by rewrite (app_edit_template_complete _ _ _ now2 db _ Hok Ht Hf2), Hs2.
  - assert (Hl : put now1 template_id (edited_entity t f1) db !! template_id
                 = Some (prepare_for_put now1 (edited_entity t f1)))
      by apply lookup_insert_eq.
    rewrite (app_edit_template_complete _ _ f2 now2 _ _ Hok Hl Hf2), Hs2.
    unfold put. rewrite insert_insert_eq. f_equal. f_equal.
    apply (prepare_for_put_edited now1 now2 t f1 f2 Hc).
Qed.

Lemma edit_template_last_write_wins_witness :
  App.edit_template POST 1 farewell_form 130
    (App.edit_template POST 1 blank_form 120 greeting_db).1
  = App.edit_template POST 1 farewell_form 130 greeting_db.
Proof.
  eapply (edit_template_last_write_wins 1 blank_form 120 farewell_form 130
            greeting_db greeting);
    [reflexivity|by vm_compute|by eexists|by vm_compute|by vm_compute].
Defined.

End Refusals.

Section RenderRefusals.

Variable jinja : string -> list (string * json) -> string + string.
Variable nonmapping_exn : string -> json -> string.
Variable put_exn : Z -> string.

Implicit Types (db : datastore) (t : PromptTemplate).

Abbreviation app_render := (App.render_template_api jinja nonmapping_exn put_exn).

(** The render API on a stored template and a request with a JSON
    document. *)
Lemma app_render_stored template_id document now db t :
  key_id_ok template_id = true ->
  db !! template_id = Some t ->
  app_render template_id (Some document) now db
  = match document_variables document with
    | JDict kwargs =>
        match jinja (template t) kwargs with
        | inl rendered =>
            if count_ok (usage_count t + 1)
            then (put now template_id (count_use t) db,
                  Answered (Json (RenderResult rendered (name t)
                                               (dict_keys kwargs)) 200))
            else (db, Answered (Json (ErrorResult
                                        ("Template rendering error: "
                                         +:+ put_exn (usage_count t + 1))) 400))
        | inr e =>
            (db, Answered (Json (ErrorResult
                                   ("Template rendering error: " +:+ e)) 400))
        end
    | v =>
        (db, Answered (Json (ErrorResult
                               ("Template rendering error: "
                                +:+ nonmapping_exn (template t) v)) 400))
    end.
Proof.
  intros Hok Ht. unfold App.render_template_api.
  rewrite (app_get_by_id _ _ Hok). unfold get_by_id. rewrite Ht.
  unfold document_variables.
  by destruct (if py_truthy document then document else JDict []).
Qed.

Lemma app_render_template_api template_id document now db :
  key_id_ok template_id = true ->
  (forall t, db !! template_id = Some t -> count_ok (usage_count t + 1) = true) ->
  app_render template_id (Some document) now db
  = ((render_template_api jinja nonmapping_exn template_id (Some document) now db).1,
     Answered
       (render_template_api jinja nonmapping_exn template_id (Some document) now db).2).
Proof.
  intros Hok Hcount. unfold App.render_template_api, render_template_api.
  rewrite (app_get_by_id _ _ Hok). unfold get_by_id.
  destruct (db !! template_id) as [t|] eqn:Ht; [|done].
  rewrite (Hcount t eq_refl). unfold request_variables.
  destruct (if py_truthy document then document else JDict []); try done.
  by destruct (jinja (template t) d).
Qed.

(** C2. On a stored template, a call of the render API with a JSON
    document succeeds exactly when the renderer returns text for the
    body and the mapping (and the raised count fits 64 bits): the answer
    is 200 with that text, and the entity is written back with its usage
    count raised by exactly 1 and nothing else changed but the
    modification date; two successful calls raise the count by exactly 2.
    When the renderer raises, when the document is not a mapping, or when
    the raised count does not fit, the answer is 400 with the error
    payload and the whole datastore is left as it was. *)
Theorem render_counts_successful_calls template_id document now db t :
  key_id_ok template_id = true ->
  db !! template_id = Some t ->
  let r := app_render template_id (Some document) now db in
  (forall kwargs rendered,
      document_variables document = JDict kwargs ->
      jinja (template t) kwargs = inl rendered ->
      count_ok (usage_count t + 1) = true ->
      r = (<[template_id := prepare_for_put now (count_use t)]> db,
           Answered (Json (RenderResult rendered (name t) (dict_keys kwargs)) 200)) /\
      (exists t', r.1 !! template_id = Some t' /\
                  usage_count t' = (usage_count t + 1)%Z /\
                  name t' = name t /\ description t' = description t /\
                  template t' = template t /\ category t' = category t /\
                  tags t' = tags t /\ variables t' = variables t /\
                  modified_date t' = Some now) /\
      (forall other, other <> template_id -> r.1 !! other = db !! other) /\
      (forall document2 now2 kwargs2 rendered2,
          document_variables document2 = JDict kwargs2 ->
          jinja (template t) kwargs2 = inl rendered2 ->
          count_ok (usage_count t + 2) = true ->
          let r2 := app_render template_id (Some document2) now2 r.1 in
          r2.2 = Answered (Json (RenderResult rendered2 (name t)
                                              (dict_keys kwargs2)) 200) /\
          exists t2, r2.1 !! template_id = Some t2 /\
                     usage_count t2 = (usage_count t + 2)%Z)) /\
  (forall kwargs e,
      document_variables document = JDict kwargs ->
      jinja (template t) kwargs = inr e ->
      r = (db, Answered (Json (ErrorResult
                                 ("Template rendering error: " +:+ e)) 400))) /\
  ((forall kwargs, document_variables document <> JDict kwargs) ->
   r = (db, Answered (Json (ErrorResult
                              ("Template rendering error: "
                               +:+ nonmapping_exn (template t)
                                     (document_variables document))) 400))) /\
  (forall kwargs rendered,
      document_variables document = JDict kwargs ->
      jinja (template t) kwargs = inl rendered ->
      count_ok (usage_count t + 1) = false ->
      r = (db, Answered (Json (ErrorResult
                                 ("Template rendering error: "
                                  +:+ put_exn (usage_count t + 1))) 400))).
Proof.
  intros Hok Ht r. subst r.
  rewrite (app_render_stored _ _ _ _ _ Hok Ht).
  split_and!.
  - intros kwargs rendered -> -> ->. unfold put. split_and!; [done| | |].
    + eexists. cbn [fst]. rewrite lookup_insert_eq. split; [reflexivity|done].
    + intros other Hne. cbn [fst]. by rewrite lookup_insert_ne.
    + intros document2 now2 kwargs2 rendered2 Hd2 Hj2 Hc2. cbn [fst].
      set (t1 := prepare_for_put now (count_use t)).
      assert (Ht1 : <[template_id := t1]> db !! template_id = Some t1)
        by apply lookup_insert_eq.
      cbn zeta. rewrite (app_render_stored _ _ _ _ _ Hok Ht1), Hd2.
      change (template t1) with (template t). rewrite Hj2.
      change (usage_count t1) with (usage_count t + 1)%Z.
      replace (usage_count t + 1 + 1)%Z with (usage_count t + 2)%Z by lia.
      rewrite Hc2. cbn [fst snd]. split; [done|].
      unfold put. eexists. rewrite lookup_insert_eq. split; [reflexivity|].
      simpl. lia.
  - by intros kwargs e -> ->.
  - intros Hnot. destruct (document_variables document); try done.
    by destruct (Hnot d).
  - by intros kwargs rendered -> -> ->.
Qed.

(** X11. A JSON document that Python counts as false ([null], [false], 0,
    the empty string, list or object) is treated as the empty
    mapping; one that counts as true and is not an object is refused with
    400 and nothing is written; a request that does not declare a JSON
    body is refused with 415 and nothing is written. *)
Theorem render_json_document template_id now db :
  (forall document,
      py_truthy document = false ->
      app_render template_id (Some document) now db
      = app_render template_id (Some (JDict [])) now db) /\
  (forall document t,
      key_id_ok template_id = true ->
      db !! template_id = Some t ->
      py_truthy document = true -> (forall kwargs, document <> JDict kwargs) ->
      app_render template_id (Some document) now db
      = (db, Answered (Json (ErrorResult
                               ("Template rendering error: "
                                +:+ nonmapping_exn (template t) document)) 400))) /\
  (forall t,
      key_id_ok template_id = true ->
      db !! template_id = Some t ->
      app_render template_id None now db = (db, UnsupportedMediaType)).
Proof.
  split_and!.
  - intros document Hf. unfold App.render_template_api. by rewrite Hf.
  - intros document t Hok Ht Htrue Hobj.
    rewrite (app_render_stored _ _ _ _ _ Hok Ht).
    unfold document_variables. rewrite Htrue.
    destruct document; try done. by destruct (Hobj d).
  - intros t Hok Ht. unfold App.render_template_api.
    rewrite (app_get_by_id _ _ Hok). unfold get_by_id. by rewrite Ht.
Qed.

Section OnFragment.

Hypothesis jinja_ok : jinja_agrees jinja.



End OnFragment.

End RenderRefusals.

Section RenderExamples.

Abbreviation render_instance :=
  (App.render_template_api jinja_instance type_error overflow_error).

Lemma render_counts_successful_calls_witness :
  (exists t',
    (render_instance 1 ada 200 greeting_db).1 !! 1%positive = Some t' /\
    usage_count t' = 1%Z) /\
  render_instance 1 (Some (JDict [])) 200 negation_db
  = (negation_db,
     Answered (Json (ErrorResult "Template rendering error: TemplateSyntaxError")
                    400)).
Proof.
  split.
  - destruct (render_counts_successful_calls jinja_instance type_error
                overflow_error 1 (JDict [("user", JStr "Ada")]) 200
                greeting_db greeting eq_refl)
      as (Hsuccess & _); [by vm_compute|].
    destruct (Hsuccess [("user", JStr "Ada")] "Hi Ada!")
      as (_ & (t' & Ht' & Hu & _) & _); [by vm_compute..|].
    exists t'. split; [exact Ht'|]. rewrite Hu. reflexivity.
  - destruct (negation_db !! 1%positive) as [t|] eqn:Ht; [|by vm_compute in Ht].
    destruct (render_counts_successful_calls jinja_instance type_error
                overflow_error 1 (JDict []) 200 negation_db t eq_refl Ht)
      as (_ & Hfailure & _).
    apply (Hfailure [] "TemplateSyntaxError"); [done|].
    vm_compute in Ht. injection Ht as <-. by vm_compute.
Defined.

Lemma render_json_document_witness :
  render_instance 1 (Some (JInt 0)) 110 greeting_db
  = render_instance 1 (Some (JDict [])) 110 greeting_db /\
  render_instance 1 (Some (JInt 5)) 110 greeting_db
  = (greeting_db,
     Answered (Json (ErrorResult "Template rendering error: TypeError") 400)) /\
  render_instance 1 None 110 greeting_db = (greeting_db, UnsupportedMediaType).
Proof.
  destruct (render_json_document jinja_instance type_error overflow_error
              1 110 greeting_db) as (H0 & H5 & Hnone).
  split_and!.
  - by apply H0.
  - by apply (H5 (JInt 5) greeting).
  - by apply (Hnone greeting).
Defined.





End RenderExamples.
